(** * Co-op eligibility: the business rule of [app.py]

    A shallow embedding of [check_coop_eligibility] (app.py, lines 142-178)
    together with the two ORM classes it reads, [User] and [Position].

    - Columns keep their declared types: [db.Integer] is [Z] (Python integers
      are unbounded), [db.Float] is a binary64 [float], [db.String]/[db.Text]
      is [string], [db.Boolean] is [bool]; a column that may hold NULL is an
      [option], with [None] for Python's [None].
    - The function reads attributes of two objects and builds a local list
      with [append].  It is written in a small state-and-exception monad over
      the object store, so that both "does not raise" and "does not write"
      are statements about the model and not consequences of its type. *)

From Stdlib Require Import ZArith List String Ascii Bool Lia.
From Stdlib Require Import Floats DecimalString.
Import ListNotations.

Local Open Scope string_scope.
Local Open Scope Z_scope.

(** ** The ORM classes *)

Module User.
(** [class User(UserMixin, db.Model)], one field per column, in order. *)
Record t : Type := Build {
  id : Z;
  role : string;
  full_name : string;
  email : string;
  password_hash : string;
  phone : option string;
  (* student-specific fields *)
  department : option string;
  major : option string;
  credit_hours_completed : option Z;
  gpa : option float;
  start_semester : option string;
  is_transfer : option bool;
  semesters_completed : option Z;
  resume_text : option string;
  (* employer-specific fields *)
  company_name : option string;
  company_location : option string;
  company_website : option string;
  contact_name : option string;
  contact_phone : option string;
  (* faculty-specific fields *)
  home_department : option string
}.
End User.

Module Position.
(** [class Position(db.Model)], one field per column, in order. *)
Record t : Type := Build {
  id : Z;
  employer_id : Z;
  title : string;
  description : string;
  weeks : Z;
  hours_per_week : Z;
  location : option string;
  majors_of_interest : option string;
  required_skills : option string;
  preferred_skills : option string;
  salary : option string;
  status : option string
}.
End Position.

(** ** Python values and operators used by the rule *)

(** The exceptions the operators of the rule can raise. *)
Inductive exn : Type :=
| TypeError.

Inductive result (A : Type) : Type :=
| Ok (a : A)
| Raise (e : exn).
Arguments Ok {A} a.
Arguments Raise {A} e.

(** The objects a call can reach: its two arguments. *)
Record Heap : Type := mkHeap {
  student : User.t;
  position : Position.t
}.

(** A computation reads and may write the store, and returns or raises. *)
Definition M (A : Type) : Type := Heap -> result A * Heap.

Definition ret {A : Type} (a : A) : M A := fun h => (Ok a, h).

Definition raise {A : Type} (e : exn) : M A := fun h => (Raise e, h).

Definition bind {A B : Type} (m : M A) (k : A -> M B) : M B :=
  fun h =>
    match m h with
    | (Ok a, h') => k a h'
    | (Raise e, h') => (Raise e, h')
    end.

Notation "x <- m ;; k" := (bind m (fun x => k))
  (at level 61, m at next level, right associativity).

(** [student.<attr>] and [position.<attr>]: attribute reads. *)
Definition getattr_student {A : Type} (attr : User.t -> A) : M A :=
  fun h => (Ok (attr (student h)), h).

Definition getattr_position {A : Type} (attr : Position.t -> A) : M A :=
  fun h => (Ok (attr (position h)), h).

(** [setattr]: the writes a computation over the store could perform.  The
    rule never uses them; they are what the frame property excludes. *)
Definition setattr_student (f : User.t -> User.t) : M unit :=
  fun h => (Ok tt, mkHeap (f (student h)) (position h)).

Definition setattr_position (f : Position.t -> Position.t) : M unit :=
  fun h => (Ok tt, mkHeap (student h) (f (position h))).

(** [x is None]. *)
Definition is_None {A : Type} (x : option A) : bool :=
  match x with
  | None => true
  | Some _ => false
  end.

(** [x < c] for a nullable float [x]: [None < 2.0] raises [TypeError],
    otherwise the IEEE 754 comparison (false on NaN). *)
Definition float_lt (x : option float) (c : float) : M bool :=
  match x with
  | None => raise TypeError
  | Some v => ret (PrimFloat.ltb v c)
  end.

(** [x or d] for a nullable integer [x]: [d] when [x] is falsy ([None] or
    [0]), else [x]. *)
Definition int_or (x : option Z) (d : Z) : Z :=
  match x with
  | None => d
  | Some v => if v =? 0 then d else v
  end.

(** Truth value of a nullable boolean in an [if]: [None] is falsy. *)
Definition truthy (x : option bool) : bool :=
  match x with
  | None => false
  | Some b => b
  end.

(** [str(n)] as an f-string interpolates an integer: decimal digits with a
    leading minus sign for negatives. *)
Definition str (n : Z) : string := NilZero.string_of_int (Z.to_int n).

(** [reasons.append(msg)] on the local list. *)
Definition append (reasons : list string) (msg : string) : list string :=
  (reasons ++ [msg])%list.

(** ** The rule *)

(** [check_coop_eligibility(student, position)], statement by statement.  The
    locals [eligible] and [reasons] are rebound where the source assigns or
    appends. *)
Definition check_coop_eligibility : M (bool * list string) :=
  let reasons := [] in
  let eligible := true in
  (* GPA check *)
  gpa <- getattr_student User.gpa ;;
  c <- (if is_None gpa then ret true else float_lt gpa 2%float) ;;
  let '(eligible, reasons) :=
    if c then (false, append reasons "GPA below 2.0")
    else (eligible, reasons) in
  (* weeks & hours *)
  weeks <- getattr_position Position.weeks ;;
  let '(eligible, reasons) :=
    if weeks <? 7
    then (false, append reasons ("Position weeks " ++ str weeks ++ " < 7"))
    else (eligible, reasons) in
  weeks <- getattr_position Position.weeks ;;
  hours_per_week <- getattr_position Position.hours_per_week ;;
  let total_hours := weeks * hours_per_week in
  let '(eligible, reasons) :=
    if total_hours <? 140
    then (false, append reasons ("Total hours " ++ str total_hours ++ " < 140"))
    else (eligible, reasons) in
  (* semesters check *)
  semesters_completed <- getattr_student User.semesters_completed ;;
  let sc := int_or semesters_completed 0 in
  is_transfer <- getattr_student User.is_transfer ;;
  let '(eligible, reasons) :=
    if truthy is_transfer then
      if sc <? 1
      then (false, append reasons
                     "Transfer student must have completed at least 1 semester")
      else (eligible, reasons)
    else
      if sc <? 2
      then (false, append reasons
                     "Non-transfer student must have completed at least 2 semesters")
      else (eligible, reasons) in
  ret (eligible, reasons).

(** One call on the two records: what the caller receives. *)
Definition call (s : User.t) (p : Position.t) : result (bool * list string) :=
  fst (check_coop_eligibility (mkHeap s p)).

(** ** Sample data of [init_db]

    The student and position rows [init_db] inserts, with the columns it sets;
    the salted password hashes play no role and are left empty. *)

#[local] Set Warnings "-inexact-float".

Definition stud1 : User.t :=
  User.Build 2 "student" "Jack Student" "jack@student.com" "" None
    None None None (Some 3.1%float) None (Some false) (Some 2) None
    None None None None None None.

Definition stud2 : User.t :=
  User.Build 3 "student" "Sam LowGPA" "sam@student.com" "" None
    None None None (Some 1.8%float) None (Some false) (Some 3) None
    None None None None None None.

Definition p1 : Position.t :=
  Position.Build 1 1 "Software Intern" "Internship for backend dev" 8 20
    (Some "Remote") (Some "CS") (Some "Python") None (Some "$3000") (Some "open").

Definition p2 : Position.t :=
  Position.Build 2 1 "Short Internship" "Short term" 6 20
    (Some "Ann Arbor") (Some "CS") (Some "Java") None (Some "$1200") (Some "open").


(** [s] with its GPA column set to NULL. *)
Definition no_gpa (s : User.t) : User.t :=
  User.Build (User.id s) (User.role s) (User.full_name s) (User.email s)
    (User.password_hash s) (User.phone s) (User.department s) (User.major s)
    (User.credit_hours_completed s) None (User.start_semester s)
    (User.is_transfer s) (User.semesters_completed s) (User.resume_text s)
    (User.company_name s) (User.company_location s) (User.company_website s)
    (User.contact_name s) (User.contact_phone s) (User.home_department s).

(** [s] with its transfer flag set to NULL. *)
Definition no_transfer_flag (s : User.t) : User.t :=
  User.Build (User.id s) (User.role s) (User.full_name s) (User.email s)
    (User.password_hash s) (User.phone s) (User.department s) (User.major s)
    (User.credit_hours_completed s) (User.gpa s) (User.start_semester s)
    None (User.semesters_completed s) (User.resume_text s)
    (User.company_name s) (User.company_location s) (User.company_website s)
    (User.contact_name s) (User.contact_phone s) (User.home_department s).

(** [s] with its semester count set to [n] (NULL for [None]). *)
Definition with_semesters (n : option Z) (s : User.t) : User.t :=
  User.Build (User.id s) (User.role s) (User.full_name s) (User.email s)
    (User.password_hash s) (User.phone s) (User.department s) (User.major s)
    (User.credit_hours_completed s) (User.gpa s) (User.start_semester s)
    (User.is_transfer s) n (User.resume_text s)
    (User.company_name s) (User.company_location s) (User.company_website s)
    (User.contact_name s) (User.contact_phone s) (User.home_department s).

(** A student as [register] leaves one: only the role, the name, the email
    and the password are set, the transfer flag takes its column default. *)
Definition registered : User.t :=
  User.Build 5 "student" "New Student" "new@student.com" "" None
    None None None None None (Some false) None None
    None None None None None None.

(** Another student with the academic attributes of [stud1] and different
    contact and profile columns. *)
Definition stud1_twin : User.t :=
  User.Build 7 "student" "Jill Student" "jill@student.com" "x" (Some "555-002")
    (Some "CECS") (Some "CS") (Some 45) (Some 3.1%float) (Some "F24")
    (Some false) (Some 2) (Some "Resume of Jill")
    None None None None None None.

(** [p1] once [view_applicants] has set its status to pending. *)
Definition p1_pending : Position.t :=
  Position.Build 1 1 "Software Intern" "Internship for backend dev" 8 20
    (Some "Remote") (Some "CS") (Some "Python") None (Some "$3000")
    (Some "pending").

(** ** The four checks, as the specification words them

    The specification lists four rules in a fixed order, each with its
    message.  These definitions follow that wording and are compared with the
    function above. *)

Definition gpa_rule_fails (s : User.t) : bool :=
  match User.gpa s with
  | None => true
  | Some g => PrimFloat.ltb g 2%float
  end.

Definition weeks_rule_fails (p : Position.t) : bool :=
  Position.weeks p <? 7.

Definition total_hours (p : Position.t) : Z :=
  Position.weeks p * Position.hours_per_week p.

Definition hours_rule_fails (p : Position.t) : bool :=
  total_hours p <? 140.

(** "treated as 0 if absent" *)
Definition semesters_or_zero (s : User.t) : Z :=
  match User.semesters_completed s with
  | None => 0
  | Some n => n
  end.

(** "boolean, default false" *)
Definition transfer (s : User.t) : bool :=
  match User.is_transfer s with
  | Some true => true
  | _ => false
  end.

Definition tenure_rule_fails (s : User.t) : bool :=
  if transfer s then semesters_or_zero s <? 1 else semesters_or_zero s <? 2.

Definition gpa_message : string := "GPA below 2.0".

Definition weeks_message (p : Position.t) : string :=
  "Position weeks " ++ str (Position.weeks p) ++ " < 7".

Definition hours_message (p : Position.t) : string :=
  "Total hours " ++ str (total_hours p) ++ " < 140".

Definition transfer_message : string :=
  "Transfer student must have completed at least 1 semester".

Definition non_transfer_message : string :=
  "Non-transfer student must have completed at least 2 semesters".

Definition tenure_message (s : User.t) : string :=
  if transfer s then transfer_message else non_transfer_message.

(** The messages of the failing checks, in the order of the rules. *)
Definition failing_reasons (s : User.t) (p : Position.t) : list string :=
  map snd
    (filter fst
       [ (gpa_rule_fails s, gpa_message);
         (weeks_rule_fails p, weeks_message p);
         (hours_rule_fails p, hours_message p);
         (tenure_rule_fails s, tenure_message s) ]).

(** No check fails. *)
Definition all_rules_pass (s : User.t) (p : Position.t) : bool :=
  negb (gpa_rule_fails s || weeks_rule_fails p
        || hours_rule_fails p || tenure_rule_fails s).


(** ** Comparing records attribute by attribute *)

(** Two [User] objects hold equal values in every column. *)
Definition User_same_fields (a b : User.t) : Prop :=
  User.id a = User.id b /\ User.role a = User.role b
  /\ User.full_name a = User.full_name b /\ User.email a = User.email b
  /\ User.password_hash a = User.password_hash b
  /\ User.phone a = User.phone b /\ User.department a = User.department b
  /\ User.major a = User.major b
  /\ User.credit_hours_completed a = User.credit_hours_completed b
  /\ User.gpa a = User.gpa b
  /\ User.start_semester a = User.start_semester b
  /\ User.is_transfer a = User.is_transfer b
  /\ User.semesters_completed a = User.semesters_completed b
  /\ User.resume_text a = User.resume_text b
  /\ User.company_name a = User.company_name b
  /\ User.company_location a = User.company_location b
  /\ User.company_website a = User.company_website b
  /\ User.contact_name a = User.contact_name b
  /\ User.contact_phone a = User.contact_phone b
  /\ User.home_department a = User.home_department b.

(** Two [Position] objects hold equal values in every column. *)
Definition Position_same_fields (a b : Position.t) : Prop :=
  Position.id a = Position.id b
  /\ Position.employer_id a = Position.employer_id b
  /\ Position.title a = Position.title b
  /\ Position.description a = Position.description b
  /\ Position.weeks a = Position.weeks b
  /\ Position.hours_per_week a = Position.hours_per_week b
  /\ Position.location a = Position.location b
  /\ Position.majors_of_interest a = Position.majors_of_interest b
  /\ Position.required_skills a = Position.required_skills b
  /\ Position.preferred_skills a = Position.preferred_skills b
  /\ Position.salary a = Position.salary b
  /\ Position.status a = Position.status b.

(** ** Effects on the store *)

(** A computation that leaves every reachable object as it found it. *)
Definition read_only {A : Type} (m : M A) : Prop :=
  forall h, snd (m h) = h.


(** * The routes around the rule

    The view functions of [app.py] that read and write the tables.  A table
    is the list of its rows in insertion order; [query.get] and [get_or_404]
    look a row up by primary key, [filter_by(...).first()] takes the first
    matching row and [.all()] every matching row; an attribute assignment
    followed by [db.session.commit()] is an UPDATE of the row with that primary
    key, and [db.session.add] followed by a commit appends a row.  What the
    surrounding libraries decide is an argument of the view: the form data
    once [validate_on_submit] has accepted it ([None] for a GET or a refused
    form), the current user (a view under [login_required] runs for a
    logged-in user only), the primary key the database gives a new row, the
    password hashing functions and SQL's [ILIKE]. *)

Module Application.
(** [class Application(db.Model)]. *)
Record t : Type := Build {
  id : Z;
  student_id : Z;
  position_id : Z;
  status : option string;
  offer_letter : option string
}.
End Application.

Module CoOpSummary.
(** [class CoOpSummary(db.Model)]. *)
Record t : Type := Build {
  id : Z;
  student_id : Z;
  position_id : Z;
  summary_text : string;
  grade : option string
}.
End CoOpSummary.

Module LoginForm.
Record t : Type := Build { email : string; password : string }.
End LoginForm.

Module RegisterForm.
Record t : Type := Build {
  role : string;
  full_name : string;
  email : string;
  password : string
}.
End RegisterForm.

Module PositionForm.
Record t : Type := Build {
  title : string;
  description : string;
  weeks : Z;
  hours_per_week : Z;
  location : option string;
  majors_of_interest : option string;
  required_skills : option string;
  preferred_skills : option string;
  salary : option string
}.
End PositionForm.

Module SelectForm.
Record t : Type := Build {
  selected_student_id : Z;
  offer_letter : option string
}.
End SelectForm.

(** The four tables. *)
Record Db : Type := mkDb {
  users : list User.t;
  positions : list Position.t;
  applications : list Application.t;
  summaries : list CoOpSummary.t
}.

(** What a view returns or how it ends. *)
Inductive response (C : Type) : Type :=
| Redirect (endpoint : string) (pid : option Z)   (* redirect(url_for(...)) *)
| Render (template : string) (context : C)        (* render_template(...) *)
| Abort (code : Z)                                (* get_or_404 *)
| Raised (exception : string).                    (* an uncaught exception *)
Arguments Redirect {C} endpoint pid.
Arguments Render {C} template context.
Arguments Abort {C} code.
Arguments Raised {C} exception.

(** One request: the response, the messages passed to [flash] with their
    categories, the lines passed to [print], and the tables afterwards. *)
Record outcome (C : Type) : Type := mkOutcome {
  response_of : response C;
  flashed : list (string * string);
  printed : list string;
  db_after : Db
}.
Arguments mkOutcome {C} response_of flashed printed db_after.
Arguments response_of {C} o.
Arguments flashed {C} o.
Arguments printed {C} o.
Arguments db_after {C} o.

(** [x == s] for a nullable string column. *)
Definition column_eqb (x : option string) (s : string) : bool :=
  match x with
  | None => false
  | Some v => String.eqb v s
  end.

(** [x or d] for a nullable string: [d] when [x] is [None] or empty. *)
Definition str_or (x : option string) (d : string) : string :=
  match x with
  | None => d
  | Some v => if String.eqb v "" then d else v
  end.

(** [sep.join(l)]. *)
Fixpoint join (sep : string) (l : list string) : string :=
  match l with
  | [] => ""
  | [x] => x
  | x :: rest => x ++ sep ++ join sep rest
  end.

Definition newline : string := String (ascii_of_nat 10) "".

(** Primary-key lookups. *)
Definition get_user (db : Db) (id : Z) : option User.t :=
  find (fun u => User.id u =? id) (users db).

Definition get_position (db : Db) (id : Z) : option Position.t :=
  find (fun p => Position.id p =? id) (positions db).

Definition get_summary (db : Db) (id : Z) : option CoOpSummary.t :=
  find (fun s => CoOpSummary.id s =? id) (summaries db).

(** [Application.query.filter_by(student_id=sid, position_id=pid).first()]. *)
Definition first_application (db : Db) (sid pid : Z) : option Application.t :=
  find (fun a => (Application.student_id a =? sid)
                 && (Application.position_id a =? pid))
       (applications db).

(** [position.status = v], committed. *)
Definition set_position_status (v : string) (p : Position.t) : Position.t :=
  Position.Build (Position.id p) (Position.employer_id p) (Position.title p)
    (Position.description p) (Position.weeks p) (Position.hours_per_week p)
    (Position.location p) (Position.majors_of_interest p)
    (Position.required_skills p) (Position.preferred_skills p)
    (Position.salary p) (Some v).

(** [app.status = 'selected'; app.offer_letter = offer], committed. *)
Definition mark_selected (offer : string) (a : Application.t) : Application.t :=
  Application.Build (Application.id a) (Application.student_id a)
    (Application.position_id a) (Some "selected") (Some offer).

(** [summary.grade = g], committed. *)
Definition set_grade (g : string) (s : CoOpSummary.t) : CoOpSummary.t :=
  CoOpSummary.Build (CoOpSummary.id s) (CoOpSummary.student_id s)
    (CoOpSummary.position_id s) (CoOpSummary.summary_text s) (Some g).

(** UPDATE of the rows whose primary key is [id]. *)
Definition update_application (id : Z) (f : Application.t -> Application.t)
    (l : list Application.t) : list Application.t :=
  map (fun a => if Application.id a =? id then f a else a) l.

Definition update_position (id : Z) (f : Position.t -> Position.t)
    (l : list Position.t) : list Position.t :=
  map (fun p => if Position.id p =? id then f p else p) l.

Definition update_summary (id : Z) (f : CoOpSummary.t -> CoOpSummary.t)
    (l : list CoOpSummary.t) : list CoOpSummary.t :=
  map (fun s => if CoOpSummary.id s =? id then f s else s) l.

(** The response of a role check that fails. *)
Definition not_authorized {C : Type} (db : Db) : outcome C :=
  mkOutcome (Redirect "index" None) [("Not authorized", "danger")] [] db.

(** ** [register] *)

Definition register (generate_password_hash : string -> string) (new_id : Z)
    (db : Db) (form : option RegisterForm.t) : outcome unit :=
  match form with
  | Some f =>
    match find (fun u => String.eqb (User.email u) (RegisterForm.email f))
               (users db) with
    | Some _ =>
      mkOutcome (Redirect "register" None)
        [("Email already registered.", "danger")] [] db
    | None =>
      let u :=
        User.Build new_id (RegisterForm.role f) (RegisterForm.full_name f)
          (RegisterForm.email f)
          (generate_password_hash (RegisterForm.password f)) None
          None None None None None (Some false) None None
          None None None None None None in
      mkOutcome (Redirect "login" None)
        [("Registered! Please login.", "success")] []
        (mkDb (users db ++ [u]) (positions db) (applications db)
              (summaries db))
    end
  | None => mkOutcome (Render "register.html" tt) [] [] db
  end.

(** ** [login]

    Beside the outcome, the user [login_user] was called with, if any. *)
Definition login (check_password_hash : string -> string -> bool)
    (db : Db) (form : option LoginForm.t) : outcome unit * option User.t :=
  match form with
  | Some f =>
    match find (fun u => String.eqb (User.email u) (LoginForm.email f))
               (users db) with
    | Some u =>
      if check_password_hash (User.password_hash u) (LoginForm.password f)
      then
        let target :=
          if String.eqb (User.role u) "employer" then "employer_dashboard"
          else if String.eqb (User.role u) "student" then "student_dashboard"
          else "faculty_dashboard" in
        (mkOutcome (Redirect target None) [("Logged in", "success")] [] db,
         Some u)
      else
        (mkOutcome (Render "login.html" tt)
           [("Invalid credentials", "danger")] [] db, None)
    | None =>
      (mkOutcome (Render "login.html" tt)
         [("Invalid credentials", "danger")] [] db, None)
    end
  | None => (mkOutcome (Render "login.html" tt) [] [] db, None)
  end.

(** ** [employer_dashboard] and [create_position] *)

Definition employer_dashboard (db : Db) (current_user : User.t)
    : outcome (list Position.t) :=
  if negb (String.eqb (User.role current_user) "employer")
  then not_authorized db
  else
    let positions :=
      filter (fun p => Position.employer_id p =? User.id current_user)
             (positions db) in
    mkOutcome (Render "employer_dashboard.html" positions) [] [] db.

Definition create_position (new_id : Z) (db : Db) (current_user : User.t)
    (form : option PositionForm.t) : outcome unit :=
  if negb (String.eqb (User.role current_user) "employer")
  then not_authorized db
  else
    match form with
    | Some f =>
      let p :=
        Position.Build new_id (User.id current_user) (PositionForm.title f)
          (PositionForm.description f) (PositionForm.weeks f)
          (PositionForm.hours_per_week f) (PositionForm.location f)
          (PositionForm.majors_of_interest f) (PositionForm.required_skills f)
          (PositionForm.preferred_skills f) (PositionForm.salary f)
          (Some "open") in
      mkOutcome (Redirect "employer_dashboard" None)
        [("Position created", "success")] []
        (mkDb (users db) (positions db ++ [p]) (applications db)
              (summaries db))
    | None => mkOutcome (Render "create_position.html" tt) [] [] db
    end.

(** ** [position_list] and [search] *)

Definition open_positions (db : Db) : list Position.t :=
  filter (fun p => column_eqb (Position.status p) "open") (positions db).

Definition position_list (db : Db) : outcome (list Position.t) :=
  mkOutcome (Render "position_list.html" (open_positions db)) [] [] db.

(** [column.ilike(pattern)] on a nullable column: NULL matches nothing. *)
Definition ilike_column (ilike : string -> string -> bool)
    (column : option string) (pattern : string) : bool :=
  match column with
  | None => false
  | Some v => ilike v pattern
  end.

(** [search], with [q] and [by] the two query arguments after their
    defaults; [strip] is [str.strip] and [ilike] is SQL's operator. *)
Definition search (strip : string -> string)
    (ilike : string -> string -> bool) (db : Db) (q by_ : string)
    : outcome (list Position.t) :=
  let q := strip q in
  let results :=
    if String.eqb q "" then open_positions db
    else
      let pattern := "%" ++ q ++ "%" in
      if String.eqb by_ "title" then
        filter (fun p => ilike (Position.title p) pattern
                         && column_eqb (Position.status p) "open")
               (positions db)
      else if String.eqb by_ "employer" then
        (* join(User) on the foreign key employer_id *)
        map fst
          (filter (fun pu => ilike_column ilike (User.company_name (snd pu))
                                          pattern
                             && column_eqb (Position.status (fst pu)) "open")
             (flat_map
                (fun p =>
                   map (fun u => (p, u))
                     (filter (fun u => User.id u =? Position.employer_id p)
                             (users db)))
                (positions db)))
      else
        filter (fun p => ilike_column ilike (Position.location p) pattern
                         && column_eqb (Position.status p) "open")
               (positions db) in
  mkOutcome (Render "position_list.html" results) [] [] db.

(** ** [position_detail]: a student applies

    [current_user] is [None] for an anonymous visitor; [submitted] is
    [ApplyForm().validate_on_submit()]. *)
Definition position_detail (new_id : Z) (db : Db)
    (current_user : option User.t) (pid : Z) (submitted : bool)
    : outcome Position.t :=
  match get_position db pid with
  | None => mkOutcome (Abort 404) [] [] db
  | Some position =>
    if submitted then
      match current_user with
      | None =>
        mkOutcome (Redirect "login" None)
          [("You must be logged in as a student to apply", "danger")] [] db
      | Some u =>
        if negb (String.eqb (User.role u) "student") then
          mkOutcome (Redirect "login" None)
            [("You must be logged in as a student to apply", "danger")] [] db
        else
          match first_application db (User.id u) (Position.id position) with
          | Some _ =>
            mkOutcome (Render "position_detail.html" position)
              [("Already applied", "info")] [] db
          | None =>
            let a :=
              Application.Build new_id (User.id u) (Position.id position)
                (Some "applied") None in
            mkOutcome (Render "apply_confirm.html" position)
              [("Application submitted", "success")] []
              (mkDb (users db) (positions db) (applications db ++ [a])
                    (summaries db))
          end
      end
    else mkOutcome (Render "position_detail.html" position) [] [] db
  end.

(** ** [view_applicants]: an employer selects a candidate *)

Definition eligible_email (student : User.t) (position : Position.t) : string :=
  "To: " ++ User.email student ++ newline ++ "Subject: Co-op eligibility"
  ++ newline ++ newline ++ "You have been selected for "
  ++ Position.title position
  ++ ". You are eligible for co-op. Please indicate interest in portal.".

Definition not_eligible_email (student : User.t) (position : Position.t)
    (reasons : list string) : string :=
  ("To: " ++ User.email student ++ newline ++ "Subject: Co-op eligibility"
   ++ newline ++ newline ++ "You have been selected for "
   ++ Position.title position
   ++ ". However, you are NOT eligible for co-op for these reasons: ")
  ++ join "; " reasons.

Definition not_eligible_flash (reasons : list string) : string :=
  "Student marked as selected. Not eligible: " ++ join ", " reasons
  ++ ". Email sent (simulated).".

(** The selection is committed before the student row is read and the rule
    is run on it; [query.get] gives [None] when no user has that key, and the
    rule then fails on its first attribute read. *)
Definition view_applicants (db : Db) (current_user : User.t) (pid : Z)
    (select_form : option SelectForm.t)
    : outcome (Position.t * list Application.t) :=
  match get_position db pid with
  | None => mkOutcome (Abort 404) [] [] db
  | Some position =>
    if negb (String.eqb (User.role current_user) "employer")
       || negb (Position.employer_id position =? User.id current_user)
    then not_authorized db
    else
      let apps :=
        filter (fun a => Application.position_id a =? pid)
               (applications db) in
      let page := Render "view_applicants.html" (position, apps) in
      match select_form with
      | Some f =>
        let sid := SelectForm.selected_student_id f in
        let offer := str_or (SelectForm.offer_letter f) "" in
        match first_application db sid pid with
        | None =>
          mkOutcome page
            [("Application not found for that student", "danger")] [] db
        | Some app_selected =>
          let db1 :=
            mkDb (users db)
              (update_position (Position.id position)
                 (set_position_status "pending") (positions db))
              (update_application (Application.id app_selected)
                 (mark_selected offer) (applications db))
              (summaries db) in
          let position := set_position_status "pending" position in
          match get_user db1 sid with
          | None => mkOutcome (Raised "AttributeError") [] [] db1
          | Some student =>
            match call student position with
            | Raise TypeError => mkOutcome (Raised "TypeError") [] [] db1
            | Ok (eligible, reasons) =>
              if eligible then
                mkOutcome (Redirect "view_applicants" (Some pid))
                  [("Student marked as selected. Eligibility: Eligible. Email sent (simulated).",
                    "success")]
                  ["--- EMAIL (simulated) ---";
                   eligible_email student position;
                   "-------------------------"]
                  db1
              else
                mkOutcome (Redirect "view_applicants" (Some pid))
                  [(not_eligible_flash reasons, "warning")]
                  ["--- EMAIL (simulated) ---";
                   not_eligible_email student position reasons;
                   "-------------------------"]
                  db1
            end
          end
        end
      | None => mkOutcome page [] [] db
      end
  end.

(** ** [student_dashboard] *)

Definition student_dashboard (db : Db) (current_user : User.t)
    : outcome (list Application.t * list Application.t) :=
  if negb (String.eqb (User.role current_user) "student")
  then not_authorized db
  else
    let my_apps :=
      filter (fun a => Application.student_id a =? User.id current_user)
             (applications db) in
    let pending :=
      filter (fun a => column_eqb (Application.status a) "selected") my_apps in
    mkOutcome (Render "student_dashboard.html" (my_apps, pending)) [] [] db.

(** ** [submit_summary], [faculty_dashboard] and [enter_grade] *)

Definition submit_summary (new_id : Z) (db : Db) (current_user : User.t)
    (pid : Z) (summary_text : option string) : outcome Position.t :=
  if negb (String.eqb (User.role current_user) "student") then
    mkOutcome (Redirect "index" None)
      [("Only students can submit co-op summaries", "danger")] [] db
  else
    match get_position db pid with
    | None => mkOutcome (Abort 404) [] [] db
    | Some position =>
      match summary_text with
      | Some text =>
        let s := CoOpSummary.Build new_id (User.id current_user) pid text None in
        mkOutcome (Redirect "student_dashboard" None)
          [("Summary submitted. Your faculty will grade it.", "success")] []
          (mkDb (users db) (positions db) (applications db)
                (summaries db ++ [s]))
      | None => mkOutcome (Render "submit_summary.html" position) [] [] db
      end
    end.

Definition faculty_dashboard (db : Db) (current_user : User.t)
    : outcome (list CoOpSummary.t) :=
  if negb (String.eqb (User.role current_user) "faculty")
  then not_authorized db
  else mkOutcome (Render "faculty_dashboard.html" (summaries db)) [] [] db.

Definition enter_grade (db : Db) (current_user : User.t) (summary_id : Z)
    (grade : option string) : outcome CoOpSummary.t :=
  if negb (String.eqb (User.role current_user) "faculty")
  then not_authorized db
  else
    match get_summary db summary_id with
    | None => mkOutcome (Abort 404) [] [] db
    | Some summary =>
      match grade with
      | Some g =>
        mkOutcome (Redirect "faculty_dashboard" None)
          [("Grade entered", "success")] []
          (mkDb (users db) (positions db) (applications db)
                (update_summary (CoOpSummary.id summary) (set_grade g)
                   (summaries db)))
      | None => mkOutcome (Render "grade_entry.html" summary) [] [] db
      end
    end.

(** ** Invariants of the tables *)

(** No student has two applications for one position. *)
Definition one_application_per_pair (db : Db) : Prop :=
  NoDup (map (fun a => (Application.student_id a, Application.position_id a))
             (applications db)).

(** No two users share an email address. *)
Definition unique_emails (db : Db) : Prop :=
  NoDup (map User.email (users db)).

(** ** Sample tables

    The tables [init_db] builds, and requests on them. *)

Definition emp : User.t :=
  User.Build 1 "employer" "Acme HR" "employer@acme.com" "" None
    None None None None None (Some false) None None
    (Some "Acme Inc") (Some "Ann Arbor, MI") None (Some "Alice HR")
    (Some "555-001") None.

Definition fac : User.t :=
  User.Build 4 "faculty" "Dr. Faculty" "faculty@umich.edu" "" None
    None None None None None (Some false) None None
    None None None None None (Some "CECS").

Definition sample_db : Db := mkDb [emp; stud1; stud2; fac] [p1; p2] [] [].

(** [stud1] has applied for [p1], [stud2] for [p2]. *)
Definition applied_db : Db :=
  db_after (position_detail 2
              (db_after (position_detail 1 sample_db (Some stud1) 1 true))
              (Some stud2) 2 true).

(** An application whose student row is gone. *)
Definition dangling_db : Db :=
  mkDb [emp] [p1] [Application.Build 1 9 1 (Some "applied") None] [].

Definition select_stud1 : SelectForm.t := SelectForm.Build 2 (Some "Welcome").

Definition select_stud2 : SelectForm.t := SelectForm.Build 3 None.

Definition select_gone : SelectForm.t := SelectForm.Build 9 None.

(** Stand-ins for werkzeug's salted hash and its check. *)
Definition sample_hash (pw : string) : string := "hash:" ++ pw.

Definition sample_check (h pw : string) : bool := String.eqb h ("hash:" ++ pw).

(** * The rule inside the running application

    A call of the rule does not happen on two records alone: the interpreter
    holds the tables behind [db.session], the user of the request, the
    messages flashed and the lines printed so far, and the two argument
    objects have an identity beside their columns.  [World] is that state and
    [W] the computations over all of it; the operations below are the ones
    the code of [app.py] performs on it. *)

Record World : Type := mkWorld {
  w_args : Heap;                        (* the objects bound to [student], [position] *)
  w_identity : Z * Z;                   (* [id(student)], [id(position)] *)
  w_tables : Db;                        (* what [db.session] reaches *)
  w_current_user : option User.t;       (* flask_login's [current_user] *)
  w_flashes : list (string * string);   (* [flash] so far *)
  w_stdout : list string                (* [print] so far *)
}.

Definition W (A : Type) : Type := World -> result A * World.

Definition w_ret {A : Type} (a : A) : W A := fun w => (Ok a, w).

Definition w_raise {A : Type} (e : exn) : W A := fun w => (Raise e, w).

Definition w_bind {A B : Type} (m : W A) (k : A -> W B) : W B :=
  fun w =>
    match m w with
    | (Ok a, w') => k a w'
    | (Raise e, w') => (Raise e, w')
    end.

Notation "x <~ m ;; k" := (w_bind m (fun x => k))
  (at level 61, m at next level, right associativity).

(** [student.<attr>] and [position.<attr>] on the argument objects. *)
Definition w_getattr_student {A : Type} (attr : User.t -> A) : W A :=
  fun w => (Ok (attr (student (w_args w))), w).

Definition w_getattr_position {A : Type} (attr : Position.t -> A) : W A :=
  fun w => (Ok (attr (position (w_args w))), w).

(** [x < c] for a nullable float, as [float_lt]. *)
Definition w_float_lt (x : option float) (c : float) : W bool :=
  match x with
  | None => w_raise TypeError
  | Some v => w_ret (PrimFloat.ltb v c)
  end.

(** [User.query.get(id)]: a read of the tables. *)
Definition w_query_get_user (id : Z) : W (option User.t) :=
  fun w => (Ok (get_user (w_tables w) id), w).

(** [flash(message, category)] and [print(line)]. *)
Definition w_flash (message category : string) : W unit :=
  fun w =>
    (Ok tt,
     mkWorld (w_args w) (w_identity w) (w_tables w) (w_current_user w)
       (w_flashes w ++ [(message, category)]) (w_stdout w)).

Definition w_print (line : string) : W unit :=
  fun w =>
    (Ok tt,
     mkWorld (w_args w) (w_identity w) (w_tables w) (w_current_user w)
       (w_flashes w) (w_stdout w ++ [line])).

(** A POST of [position_detail] by the user of the request: it reads and
    writes the tables and flashes. *)
Definition w_apply (new_id pid : Z) : W (response Position.t) :=
  fun w =>
    let o := position_detail new_id (w_tables w) (w_current_user w) pid true in
    (Ok (response_of o),
     mkWorld (w_args w) (w_identity w) (db_after o) (w_current_user w)
       (w_flashes w ++ flashed o) (w_stdout w ++ printed o)).

(** [check_coop_eligibility(student, position)] as the interpreter runs it,
    statement by statement as above, with every operation of the body an
    operation on the world. *)
Definition check_coop_eligibility_in_world : W (bool * list string) :=
  let reasons := [] in
  let eligible := true in
  (* GPA check *)
  gpa <~ w_getattr_student User.gpa ;;
  c <~ (if is_None gpa then w_ret true else w_float_lt gpa 2%float) ;;
  let '(eligible, reasons) :=
    if c then (false, append reasons "GPA below 2.0")
    else (eligible, reasons) in
  (* weeks & hours *)
  weeks <~ w_getattr_position Position.weeks ;;
  let '(eligible, reasons) :=
    if weeks <? 7
    then (false, append reasons ("Position weeks " ++ str weeks ++ " < 7"))
    else (eligible, reasons) in
  weeks <~ w_getattr_position Position.weeks ;;
  hours_per_week <~ w_getattr_position Position.hours_per_week ;;
  let total_hours := weeks * hours_per_week in
  let '(eligible, reasons) :=
    if total_hours <? 140
    then (false, append reasons ("Total hours " ++ str total_hours ++ " < 140"))
    else (eligible, reasons) in
  (* semesters check *)
  semesters_completed <~ w_getattr_student User.semesters_completed ;;
  let sc := int_or semesters_completed 0 in
  is_transfer <~ w_getattr_student User.is_transfer ;;
  let '(eligible, reasons) :=
    if truthy is_transfer then
      if sc <? 1
      then (false, append reasons
                     "Transfer student must have completed at least 1 semester")
      else (eligible, reasons)
    else
      if sc <? 2
      then (false, append reasons
                     "Non-transfer student must have completed at least 2 semesters")
      else (eligible, reasons) in
  w_ret (eligible, reasons).

(** Two calls in a row, as two selections would make. *)
Definition two_calls_in_world
    : W ((bool * list string) * (bool * list string)) :=
  r1 <~ check_coop_eligibility_in_world ;;
  r2 <~ check_coop_eligibility_in_world ;;
  w_ret (r1, r2).

(** The value of a computation is decided by the columns of the two
    argument objects: worlds that agree on them give the same value. *)
Definition decided_by_arguments {A : Type} (m : W A) : Prop :=
  forall w1 w2,
    User_same_fields (student (w_args w1)) (student (w_args w2)) ->
    Position_same_fields (position (w_args w1)) (position (w_args w2)) ->
    fst (m w1) = fst (m w2).

(** A computation gives the same value again when it is repeated. *)
Definition repeatable {A : Type} (m : W A) : Prop :=
  forall w, fst (m (snd (m w))) = fst (m w).

(** Two moments of the application: a fresh start, and later, with
    applications stored, an employer logged in, a message flashed, a line
    printed and other objects holding the same rows. *)
Definition world_start : World :=
  mkWorld (mkHeap stud1 p1) (140001, 140002) sample_db (Some stud1) [] [].

Definition world_later : World :=
  mkWorld (mkHeap stud1 p1) (150001, 150002) applied_db (Some emp)
    [("Logged in", "success")] ["--- EMAIL (simulated) ---"].

(** ** Proof automation *)

(** One step of the symbolic run: expose the next test of the body. *)
Ltac run_step :=
  cbv beta zeta iota delta
    [check_coop_eligibility bind getattr_student getattr_position ret
     float_lt is_None student position append app].

(** The same step for the rule inside the application. *)
Ltac world_step :=
  cbv beta zeta iota delta
    [check_coop_eligibility_in_world w_bind w_getattr_student
     w_getattr_position w_ret w_float_lt is_None w_args student position
     append app].

(** Two messages that differ within their fixed prefixes. *)
Ltac distinct_strings :=
  let H := fresh in
  intro H; cbv delta [gpa_message weeks_message hours_message transfer_message
                      non_transfer_message] in H;
  cbn [String.append] in H; discriminate H.

(** * Properties *)

(** ** Python operators *)

Lemma int_or_zero (x : option Z) :
  int_or x 0 = match x with None => 0 | Some n => n end.
Proof.
  destruct x as [n|]; simpl; [|reflexivity].
  destruct (Z.eqb_spec n 0) as [->|]; reflexivity.
Qed.

Lemma truthy_transfer (s : User.t) : truthy (User.is_transfer s) = transfer s.
Proof. unfold truthy, transfer. destruct (User.is_transfer s) as [[|]|]; reflexivity. Qed.

(** An unguarded [None < 2.0] does raise: the guard of the GPA check is what
    keeps the rule from failing. *)
Lemma float_lt_None (c : float) (h : Heap) :
  float_lt None c h = (Raise TypeError, h).
Proof. reflexivity. Qed.

(** ** The function computes the failing checks *)

Lemma check_coop_eligibility_eq (h : Heap) :
  check_coop_eligibility h
  = (Ok (all_rules_pass (student h) (position h),
         failing_reasons (student h) (position h)), h).
Proof.
  destruct h as [s p]; cbn [student position].
  unfold all_rules_pass, failing_reasons, gpa_rule_fails, weeks_rule_fails,
    hours_rule_fails, tenure_rule_fails, tenure_message, weeks_message,
    hours_message, total_hours.
  rewrite <- truthy_transfer.
  replace (semesters_or_zero s) with (int_or (User.semesters_completed s) 0)
    by apply int_or_zero.
  run_step.
  destruct (User.gpa s) as [g|]; run_step;
    [destruct (PrimFloat.ltb g 2); run_step|];
    (destruct (Position.weeks p <? 7); run_step;
     destruct (Position.weeks p * Position.hours_per_week p <? 140); run_step;
     destruct (truthy (User.is_transfer s)); run_step;
     destruct (int_or (User.semesters_completed s) 0 <? 1);
     destruct (int_or (User.semesters_completed s) 0 <? 2);
     reflexivity).
Qed.

Lemma call_eq (s : User.t) (p : Position.t) :
  call s p = Ok (all_rules_pass s p, failing_reasons s p).
Proof. unfold call. rewrite check_coop_eligibility_eq. reflexivity. Qed.

(** ** Floating-point comparison against the threshold *)

(** Mantissas of equal exponent: not above means the other is not below. *)
Lemma compare_cont_ge_not_lt (a b : positive) :
  match PosDef.Pos.compare_cont Eq a b with Gt => false | _ => true end = true ->
  match PosDef.Pos.compare_cont Eq b a with Lt => true | _ => false end = false.
Proof.
  change (PosDef.Pos.compare_cont Eq a b) with (a ?= b)%positive.
  change (PosDef.Pos.compare_cont Eq b a) with (b ?= a)%positive.
  rewrite (Pos.compare_antisym a b).
  destruct (a ?= b)%positive; cbn [CompOpp]; congruence.
Qed.

(** A GPA that compares [>= 2.0] does not compare [< 2.0] (a NaN compares
    neither way). *)
Lemma float_ge_not_lt (g : float) :
  PrimFloat.leb 2%float g = true -> PrimFloat.ltb g 2%float = false.
Proof.
  rewrite leb_spec, ltb_spec.
  change (Prim2SF 2%float) with (S754_finite false 4503599627370496 (-51)).
  unfold SFleb, SFltb.
  destruct (Prim2SF g) as [sg|sg| |sg m e]; cbn [SFcompare];
    try destruct sg; try discriminate; try reflexivity.
  rewrite (Z.compare_antisym (-51) e).
  destruct (-51 ?= e)%Z; cbn [CompOpp]; try discriminate; try reflexivity.
  exact (compare_cont_ge_not_lt _ _).
Qed.

(** ** The messages are pairwise distinct *)

Lemma gpa_neq_weeks p : gpa_message <> weeks_message p.
Proof. distinct_strings. Qed.
Lemma gpa_neq_hours p : gpa_message <> hours_message p.
Proof. distinct_strings. Qed.
Lemma gpa_neq_transfer : gpa_message <> transfer_message.
Proof. distinct_strings. Qed.
Lemma gpa_neq_non_transfer : gpa_message <> non_transfer_message.
Proof. distinct_strings. Qed.
Lemma weeks_neq_hours p : weeks_message p <> hours_message p.
Proof. distinct_strings. Qed.
Lemma weeks_neq_transfer p : weeks_message p <> transfer_message.
Proof. distinct_strings. Qed.
Lemma weeks_neq_non_transfer p : weeks_message p <> non_transfer_message.
Proof. distinct_strings. Qed.
Lemma hours_neq_transfer p : hours_message p <> transfer_message.
Proof. distinct_strings. Qed.
Lemma hours_neq_non_transfer p : hours_message p <> non_transfer_message.
Proof. distinct_strings. Qed.
Lemma transfer_neq_non_transfer : transfer_message <> non_transfer_message.
Proof. distinct_strings. Qed.

(** ** Membership in the reasons *)

Lemma In_failing_reasons (s : User.t) (p : Position.t) (m : string) :
  In m (failing_reasons s p) <->
  (gpa_rule_fails s = true /\ m = gpa_message)
  \/ (weeks_rule_fails p = true /\ m = weeks_message p)
  \/ (hours_rule_fails p = true /\ m = hours_message p)
  \/ (tenure_rule_fails s = true /\ m = tenure_message s).
Proof.
  unfold failing_reasons.
  destruct (gpa_rule_fails s), (weeks_rule_fails p), (hours_rule_fails p),
    (tenure_rule_fails s); cbn [filter map fst snd In];
    intuition (auto; try discriminate).
Qed.

Lemma failing_reasons_nil (s : User.t) (p : Position.t) :
  failing_reasons s p = [] <-> all_rules_pass s p = true.
Proof.
  unfold failing_reasons, all_rules_pass.
  destruct (gpa_rule_fails s), (weeks_rule_fails p), (hours_rule_fails p),
    (tenure_rule_fails s); cbn; split; intro; congruence.
Qed.

Lemma tenure_message_cases (s : User.t) :
  tenure_message s = transfer_message /\ transfer s = true
  \/ tenure_message s = non_transfer_message /\ transfer s = false.
Proof. unfold tenure_message. destruct (transfer s); auto. Qed.

Lemma transfer_true_iff (s : User.t) :
  transfer s = true <-> User.is_transfer s = Some true.
Proof.
  unfold transfer. destruct (User.is_transfer s) as [[|]|];
    split; congruence.
Qed.

Lemma In_gpa_message (s : User.t) (p : Position.t) :
  In gpa_message (failing_reasons s p) <-> gpa_rule_fails s = true.
Proof.
  rewrite In_failing_reasons. split.
  - intros [[H _]|[[_ H]|[[_ H]|[_ H]]]]; [exact H| | |].
    + destruct (gpa_neq_weeks _ H).
    + destruct (gpa_neq_hours _ H).
    + destruct (tenure_message_cases s) as [[E _]|[E _]]; rewrite E in H.
      * destruct (gpa_neq_transfer H).
      * destruct (gpa_neq_non_transfer H).
  - auto.
Qed.

Lemma In_weeks_message (s : User.t) (p : Position.t) :
  In (weeks_message p) (failing_reasons s p) <-> weeks_rule_fails p = true.
Proof.
  rewrite In_failing_reasons. split.
  - intros [[_ H]|[[H _]|[[_ H]|[_ H]]]]; [|exact H| |].
    + symmetry in H. destruct (gpa_neq_weeks _ H).
    + destruct (weeks_neq_hours _ H).
    + destruct (tenure_message_cases s) as [[E _]|[E _]]; rewrite E in H.
      * destruct (weeks_neq_transfer _ H).
      * destruct (weeks_neq_non_transfer _ H).
  - auto.
Qed.

Lemma In_hours_message (s : User.t) (p : Position.t) :
  In (hours_message p) (failing_reasons s p) <-> hours_rule_fails p = true.
Proof.
  rewrite In_failing_reasons. split.
  - intros [[_ H]|[[_ H]|[[H _]|[_ H]]]]; [| |exact H|].
    + symmetry in H. destruct (gpa_neq_hours _ H).
    + symmetry in H. destruct (weeks_neq_hours _ H).
    + destruct (tenure_message_cases s) as [[E _]|[E _]]; rewrite E in H.
      * destruct (hours_neq_transfer _ H).
      * destruct (hours_neq_non_transfer _ H).
  - auto.
Qed.

Lemma In_transfer_message (s : User.t) (p : Position.t) :
  In transfer_message (failing_reasons s p)
  <-> transfer s = true /\ (semesters_or_zero s <? 1) = true.
Proof.
  rewrite In_failing_reasons. unfold tenure_rule_fails, tenure_message. split.
  - intros [[_ H]|[[_ H]|[[_ H]|[F H]]]].
    + symmetry in H. destruct (gpa_neq_transfer H).
    + symmetry in H. destruct (weeks_neq_transfer _ H).
    + symmetry in H. destruct (hours_neq_transfer _ H).
    + destruct (transfer s); [auto|]. destruct (transfer_neq_non_transfer H).
  - intros [T F]. rewrite T. auto.
Qed.

Lemma In_non_transfer_message (s : User.t) (p : Position.t) :
  In non_transfer_message (failing_reasons s p)
  <-> transfer s = false /\ (semesters_or_zero s <? 2) = true.
Proof.
  rewrite In_failing_reasons. unfold tenure_rule_fails, tenure_message. split.
  - intros [[_ H]|[[_ H]|[[_ H]|[F H]]]].
    + symmetry in H. destruct (gpa_neq_non_transfer H).
    + symmetry in H. destruct (weeks_neq_non_transfer _ H).
    + symmetry in H. destruct (hours_neq_non_transfer _ H).
    + destruct (transfer s); [|auto].
      symmetry in H. destruct (transfer_neq_non_transfer H).
  - intros [T F]. rewrite T. auto.
Qed.

(** The result depends on the records through five attributes only. *)
Lemma call_five_fields (s1 s2 : User.t) (p1 p2 : Position.t) :
  User.gpa s1 = User.gpa s2 ->
  User.is_transfer s1 = User.is_transfer s2 ->
  User.semesters_completed s1 = User.semesters_completed s2 ->
  Position.weeks p1 = Position.weeks p2 ->
  Position.hours_per_week p1 = Position.hours_per_week p2 ->
  call s1 p1 = call s2 p2.
Proof.
  intros Hg Ht Hs Hw Hh. rewrite !call_eq.
  unfold all_rules_pass, failing_reasons, gpa_rule_fails, weeks_rule_fails,
    hours_rule_fails, tenure_rule_fails, tenure_message, weeks_message,
    hours_message, total_hours, transfer, semesters_or_zero.
  rewrite Hg, Ht, Hs, Hw, Hh. reflexivity.
Qed.

(** ** The verdict *)

(** C1. The verdict is [true] exactly when no reason was collected; and a
    student with a GPA present and at least 2.0, a position of at least 7
    weeks and at least 140 total hours, and enough completed semesters for
    the transfer status (1 for a transfer student, 2 otherwise) gets
    [(true, [])]. *)
Theorem eligible_iff_no_reasons (s : User.t) (p : Position.t) :
  (exists e r, call s p = Ok (e, r) /\ (e = true <-> r = []))
  /\ (forall g n,
        User.gpa s = Some g ->
        PrimFloat.leb 2%float g = true ->
        7 <= Position.weeks p ->
        140 <= Position.weeks p * Position.hours_per_week p ->
        User.semesters_completed s = Some n ->
        match User.is_transfer s with Some true => 1 | _ => 2 end <= n ->
        call s p = Ok (true, [])).
Proof.
  split.
  - exists (all_rules_pass s p), (failing_reasons s p).
    split; [apply call_eq|]. symmetry. apply failing_reasons_nil.
  - intros g n Hg Hge Hw Hh Hs Hn.
    rewrite call_eq.
    assert (P : all_rules_pass s p = true).
    { unfold all_rules_pass, gpa_rule_fails, weeks_rule_fails,
        hours_rule_fails, tenure_rule_fails, total_hours, transfer,
        semesters_or_zero.
      rewrite Hg, Hs, (float_ge_not_lt g Hge).
      destruct (Z.ltb_spec (Position.weeks p) 7); [lia|].
      destruct (Z.ltb_spec (Position.weeks p * Position.hours_per_week p) 140);
        [lia|].
      destruct (User.is_transfer s) as [[|]|];
        [destruct (Z.ltb_spec n 1)|destruct (Z.ltb_spec n 2)
        |destruct (Z.ltb_spec n 2)]; first [lia|reflexivity]. }
    rewrite P. apply failing_reasons_nil in P. rewrite P. reflexivity.
Qed.

Lemma eligible_iff_no_reasons_witness : call stud1 p1 = Ok (true, []).
Proof.
  apply (proj2 (eligible_iff_no_reasons stud1 p1) 3.1%float 2);
    first [reflexivity | vm_compute; discriminate].
Defined.

(** ** The GPA rule *)

(** C2. The reasons contain "GPA below 2.0" exactly when the GPA is absent
    or compares below 2.0, whatever the other attributes are; and a student
    without a GPA gets the same result as one with a GPA below 2.0 and the
    same tenure attributes. *)
Theorem gpa_reason_iff (s : User.t) (p : Position.t) :
  (exists e r, call s p = Ok (e, r)
     /\ (In "GPA below 2.0" r
         <-> User.gpa s = None
             \/ exists g, User.gpa s = Some g /\ PrimFloat.ltb g 2%float = true))
  /\ (forall s' g,
        User.gpa s = None ->
        User.gpa s' = Some g -> PrimFloat.ltb g 2%float = true ->
        User.is_transfer s' = User.is_transfer s ->
        User.semesters_completed s' = User.semesters_completed s ->
        call s p = call s' p).
Proof.
  split.
  - exists (all_rules_pass s p), (failing_reasons s p).
    split; [apply call_eq|].
    change "GPA below 2.0" with gpa_message. rewrite In_gpa_message.
    unfold gpa_rule_fails. destruct (User.gpa s) as [g|]; split.
    + intro H. right. exists g. auto.
    + intros [H|[g' [E H]]]; [discriminate|]. injection E as ->. exact H.
    + auto.
    + reflexivity.
  - intros s' g Hn Hg Hlt Ht Hs. rewrite !call_eq.
    unfold all_rules_pass, failing_reasons, gpa_rule_fails, tenure_rule_fails,
      tenure_message, transfer, semesters_or_zero.
    rewrite Hn, Hg, Hlt, Ht, Hs. reflexivity.
Qed.

Lemma gpa_reason_iff_witness : call (no_gpa stud2) p2 = call stud2 p2.
Proof.
  apply (proj2 (gpa_reason_iff (no_gpa stud2) p2) stud2 1.8%float);
    reflexivity.
Defined.

(** ** The duration rules *)

(** C3. The two duration rules are checked independently: the reasons
    contain "Position weeks {weeks} < 7" exactly when [weeks < 7], and
    "Total hours {total} < 140" exactly when [weeks * hours_per_week < 140];
    with 6 weeks of 20 hours both "Position weeks 6 < 7" and
    "Total hours 120 < 140" are reported. *)
Theorem duration_reasons_iff (s : User.t) (p : Position.t) :
  exists e r, call s p = Ok (e, r)
    /\ (In ("Position weeks " ++ str (Position.weeks p) ++ " < 7") r
        <-> Position.weeks p < 7)
    /\ (In ("Total hours "
            ++ str (Position.weeks p * Position.hours_per_week p) ++ " < 140") r
        <-> Position.weeks p * Position.hours_per_week p < 140)
    /\ (Position.weeks p = 6 -> Position.hours_per_week p = 20 ->
        In "Position weeks 6 < 7" r /\ In "Total hours 120 < 140" r).
Proof.
  exists (all_rules_pass s p), (failing_reasons s p).
  split; [apply call_eq|].
  assert (W : In (weeks_message p) (failing_reasons s p)
              <-> Position.weeks p < 7).
  { rewrite In_weeks_message. apply Z.ltb_lt. }
  assert (H : In (hours_message p) (failing_reasons s p)
              <-> Position.weeks p * Position.hours_per_week p < 140).
  { rewrite In_hours_message. apply Z.ltb_lt. }
  split; [exact W|]. split; [exact H|].
  intros Hw Hh. unfold weeks_message, hours_message, total_hours in W, H.
  rewrite Hw in W. rewrite Hw, Hh in H.
  split; [apply W|apply H]; reflexivity.
Qed.

Lemma duration_reasons_iff_witness :
  exists e r, call stud1 p2 = Ok (e, r)
    /\ In "Position weeks 6 < 7" r /\ In "Total hours 120 < 140" r.
Proof.
  destruct (duration_reasons_iff stud1 p2) as [e [r [E [_ [_ H]]]]].
  exists e, r. split; [exact E|]. apply H; reflexivity.
Defined.

(** ** The tenure rule *)

(** C4. "Transfer student must have completed at least 1 semester" is
    reported exactly for a transfer student with fewer than 1 completed
    semester, "Non-transfer student must have completed at least 2 semesters"
    exactly for a student who is not a transfer student with fewer than 2
    (an absent count is 0); no reasons list contains both. *)
Theorem tenure_reasons_iff (s : User.t) (p : Position.t) :
  exists e r, call s p = Ok (e, r)
    /\ (In "Transfer student must have completed at least 1 semester" r
        <-> User.is_transfer s = Some true /\ semesters_or_zero s < 1)
    /\ (In "Non-transfer student must have completed at least 2 semesters" r
        <-> User.is_transfer s <> Some true /\ semesters_or_zero s < 2)
    /\ ~ (In "Transfer student must have completed at least 1 semester" r
          /\ In "Non-transfer student must have completed at least 2 semesters" r).
Proof.
  exists (all_rules_pass s p), (failing_reasons s p).
  split; [apply call_eq|].
  change "Transfer student must have completed at least 1 semester"
    with transfer_message.
  change "Non-transfer student must have completed at least 2 semesters"
    with non_transfer_message.
  rewrite In_transfer_message, In_non_transfer_message, !Z.ltb_lt,
    <- transfer_true_iff.
  repeat split; try tauto.
  - destruct (transfer s); intuition congruence.
  - destruct (transfer s); intuition congruence.
  - intros [[T _] [F _]]. congruence.
Qed.

(** ** Totality *)

(** C5. The call returns a pair for every student and position and never
    raises: an absent GPA fails the GPA check (verdict [false], reason
    "GPA below 2.0"), an absent semester count gives the result a count of 0
    gives, and a student with all three academic attributes absent gets a
    verdict with the GPA and the non-transfer tenure reasons. *)
Theorem never_raises (s : User.t) (p : Position.t) :
  (exists e r, call s p = Ok (e, r))
  /\ (User.gpa s = None ->
      exists r, call s p = Ok (false, r) /\ In "GPA below 2.0" r)
  /\ (User.semesters_completed s = None ->
      call s p = call (with_semesters (Some 0) s) p)
  /\ (User.gpa s = None -> User.semesters_completed s = None ->
      User.is_transfer s = None ->
      exists r, call s p = Ok (false, r)
        /\ In "GPA below 2.0" r
        /\ In "Non-transfer student must have completed at least 2 semesters" r).
Proof.
  assert (G : User.gpa s = None ->
              all_rules_pass s p = false
              /\ In gpa_message (failing_reasons s p)).
  { intro Hg. assert (F : gpa_rule_fails s = true)
      by (unfold gpa_rule_fails; rewrite Hg; reflexivity).
    split; [unfold all_rules_pass; rewrite F; reflexivity|].
    apply In_gpa_message, F. }
  repeat split.
  - exists (all_rules_pass s p), (failing_reasons s p). apply call_eq.
  - intro Hg. destruct (G Hg) as [E I].
    exists (failing_reasons s p). rewrite call_eq, E. auto.
  - intro Hs. rewrite !call_eq.
    unfold all_rules_pass, failing_reasons, tenure_rule_fails,
      semesters_or_zero.
    cbn [with_semesters User.semesters_completed].
    rewrite Hs. reflexivity.
  - intros Hg Hs Ht. destruct (G Hg) as [E I].
    exists (failing_reasons s p). rewrite call_eq, E.
    repeat split; [exact I|].
    apply In_non_transfer_message.
    unfold transfer, semesters_or_zero. rewrite Hs, Ht. auto.
Qed.

Lemma never_raises_witness :
  exists r, call (no_transfer_flag registered) p1 = Ok (false, r)
    /\ In "GPA below 2.0" r
    /\ In "Non-transfer student must have completed at least 2 semesters" r.
Proof.
  apply (proj2 (proj2 (proj2
           (never_raises (no_transfer_flag registered) p1))));
    reflexivity.
Defined.

(** ** Order of the reasons *)

(** C6. The reasons are the messages of the failing checks, in the order GPA,
    weeks, total hours, tenure; a non-transfer student with GPA 1.8 and 3
    semesters, for a position of 6 weeks at 20 hours, gets [false] with
    "GPA below 2.0", "Position weeks 6 < 7", "Total hours 120 < 140". *)
Theorem reasons_in_check_order (s : User.t) (p : Position.t) :
  (exists e, call s p = Ok (e, failing_reasons s p))
  /\ (User.gpa s = Some 1.8%float ->
      User.semesters_completed s = Some 3 ->
      User.is_transfer s = Some false ->
      Position.weeks p = 6 -> Position.hours_per_week p = 20 ->
      call s p = Ok (false, ["GPA below 2.0"; "Position weeks 6 < 7";
                             "Total hours 120 < 140"])).
Proof.
  split.
  - exists (all_rules_pass s p). apply call_eq.
  - intros Hg Hs Ht Hw Hh. rewrite call_eq.
    unfold all_rules_pass, failing_reasons, gpa_rule_fails, weeks_rule_fails,
      hours_rule_fails, tenure_rule_fails, tenure_message, weeks_message,
      hours_message, total_hours, transfer, semesters_or_zero.
    rewrite Hg, Hs, Ht, Hw, Hh. reflexivity.
Qed.

Lemma reasons_in_check_order_witness :
  call stud2 p2 = Ok (false, ["GPA below 2.0"; "Position weeks 6 < 7";
                              "Total hours 120 < 140"]).
Proof.
  apply (proj2 (reasons_in_check_order stud2 p2)); reflexivity.
Defined.

(** ** The store is only read *)

Section ReadOnly.
Context {A B : Type}.

Lemma ret_read_only (a : A) : read_only (ret a).
Proof. intro h. reflexivity. Qed.

Lemma raise_read_only (e : exn) : read_only (@raise A e).
Proof. intro h. reflexivity. Qed.

Lemma bind_read_only (m : M A) (k : A -> M B) :
  read_only m -> (forall a, read_only (k a)) -> read_only (bind m k).
Proof.
  intros Hm Hk h. unfold bind.
  specialize (Hm h). destruct (m h) as [[a|e] h']; cbn [snd] in Hm; subst h'.
  - apply Hk.
  - reflexivity.
Qed.

Lemma getattr_student_read_only (attr : User.t -> A) :
  read_only (getattr_student attr).
Proof. intro h. reflexivity. Qed.

Lemma getattr_position_read_only (attr : Position.t -> A) :
  read_only (getattr_position attr).
Proof. intro h. reflexivity. Qed.
End ReadOnly.

Lemma float_lt_read_only (x : option float) (c : float) :
  read_only (float_lt x c).
Proof. destruct x; [apply ret_read_only|apply raise_read_only]. Qed.

(** A write is not [read_only]: the predicate does tell computations apart. *)
Lemma setattr_student_not_read_only :
  ~ read_only (setattr_student (with_semesters None)).
Proof.
  intro H. specialize (H (mkHeap stud1 p1)).
  apply (f_equal (fun h => User.semesters_completed (student h))) in H.
  discriminate H.
Qed.

Lemma check_coop_eligibility_read_only : read_only check_coop_eligibility.
Proof.
  unfold check_coop_eligibility.
  repeat first
    [ apply ret_read_only
    | apply getattr_student_read_only
    | apply getattr_position_read_only
    | apply float_lt_read_only
    | apply bind_read_only; [|intro]
    | match goal with
      | |- read_only (if ?c then _ else _) => destruct c
      | |- read_only (let '(_, _) := (if ?c then _ else _) in _) => destruct c
      | |- read_only (let '(_, _) :=
                        (if ?c then (if ?d then _ else _)
                         else (if ?e then _ else _)) in _) =>
          destruct c; [destruct d|destruct e]
      end ].
Qed.

(** C7. A call leaves both records as they were: the student and position
    objects in the store after the call are the ones before it, column by
    column. *)
Theorem never_mutates_inputs (s : User.t) (p : Position.t) :
  let h' := snd (check_coop_eligibility (mkHeap s p)) in
  student h' = s /\ position h' = p
  /\ User_same_fields (student h') s /\ Position_same_fields (position h') p.
Proof.
  cbv zeta. rewrite check_coop_eligibility_read_only. cbn [student position].
  unfold User_same_fields, Position_same_fields. repeat split.
Qed.

(** ** Determinism and independence of unused columns *)

(** The rule inside the application computes the failing checks of its two
    arguments and leaves the world as it is. *)
Lemma check_coop_eligibility_in_world_eq (w : World) :
  check_coop_eligibility_in_world w
  = (Ok (all_rules_pass (student (w_args w)) (position (w_args w)),
         failing_reasons (student (w_args w)) (position (w_args w))), w).
Proof.
  destruct w as [[s p] ids tables user flashes stdout].
  cbn [w_args student position].
  unfold all_rules_pass, failing_reasons, gpa_rule_fails, weeks_rule_fails,
    hours_rule_fails, tenure_rule_fails, tenure_message, weeks_message,
    hours_message, total_hours.
  rewrite <- truthy_transfer.
  replace (semesters_or_zero s) with (int_or (User.semesters_completed s) 0)
    by apply int_or_zero.
  world_step.
  destruct (User.gpa s) as [g|]; world_step;
    [destruct (PrimFloat.ltb g 2); world_step|];
    (destruct (Position.weeks p <? 7); world_step;
     destruct (Position.weeks p * Position.hours_per_week p <? 140); world_step;
     destruct (truthy (User.is_transfer s)); world_step;
     destruct (int_or (User.semesters_completed s) 0 <? 1);
     destruct (int_or (User.semesters_completed s) 0 <? 2);
     reflexivity).
Qed.

(** Inside the application the rule returns what it returns on the two
    records alone. *)
Lemma check_coop_eligibility_in_world_call (w : World) :
  fst (check_coop_eligibility_in_world w)
  = call (student (w_args w)) (position (w_args w)).
Proof. rewrite check_coop_eligibility_in_world_eq, call_eq. reflexivity. Qed.

(** The rule is decided by its two arguments, and repeatable. *)
Lemma rule_decided_by_arguments :
  decided_by_arguments check_coop_eligibility_in_world.
Proof.
  intros a b Ha Hb. rewrite !check_coop_eligibility_in_world_call.
  unfold User_same_fields, Position_same_fields in Ha, Hb.
  apply call_five_fields; tauto.
Qed.

Lemma rule_repeatable : repeatable check_coop_eligibility_in_world.
Proof.
  intro w. rewrite !check_coop_eligibility_in_world_eq. reflexivity.
Qed.

(** Not every computation of the application is decided by the two
    arguments: the lookup [view_applicants] makes before it calls the rule
    depends on the tables. *)
Lemma query_not_decided_by_arguments :
  ~ decided_by_arguments (w_query_get_user 2).
Proof.
  intro H.
  specialize (H world_start
                (mkWorld (mkHeap stud1 p1) (140001, 140002)
                   (mkDb [] [] [] []) (Some stud1) [] [])).
  cbn [w_args student position] in H.
  assert (E : fst (w_query_get_user 2 world_start) = Ok (Some stud1))
    by reflexivity.
  rewrite E in H. discriminate H.
  - unfold User_same_fields. repeat split.
  - unfold Position_same_fields. repeat split.
Qed.

(** Nor is every computation repeatable: an application submitted a second
    time is answered differently from the first. *)
Lemma apply_not_repeatable : ~ repeatable (w_apply 1 1).
Proof.
  intro H. specialize (H world_start). vm_compute in H. discriminate H.
Qed.

(** C8. The rule is deterministic and idempotent inside the running
    application: two calls whose student and position objects hold equal
    column values return the same pair, whatever else differs between the two
    moments (the identity of the objects, the tables, the user of the request,
    what has been flashed and printed); a call leaves all of that as it is, so
    a call repeated returns the same pair again; and so does a call made after
    any earlier computation that left those column values as they were. *)
Theorem deterministic_and_idempotent (w1 w2 : World) :
  User_same_fields (student (w_args w1)) (student (w_args w2)) ->
  Position_same_fields (position (w_args w1)) (position (w_args w2)) ->
  exists v,
    check_coop_eligibility_in_world w1 = (Ok v, w1)
    /\ check_coop_eligibility_in_world w2 = (Ok v, w2)
    /\ two_calls_in_world w1 = (Ok (v, v), w1)
    /\ (forall (X : Type) (earlier : W X),
          User_same_fields (student (w_args (snd (earlier w1))))
                           (student (w_args w1)) ->
          Position_same_fields (position (w_args (snd (earlier w1))))
                               (position (w_args w1)) ->
          fst (check_coop_eligibility_in_world (snd (earlier w1))) = Ok v).
Proof.
  intros Hs Hp.
  exists (all_rules_pass (student (w_args w1)) (position (w_args w1)),
          failing_reasons (student (w_args w1)) (position (w_args w1))).
  pose proof rule_decided_by_arguments as D. unfold decided_by_arguments in D.
  split; [apply check_coop_eligibility_in_world_eq|]. split.
  - pose proof (D w1 w2 Hs Hp) as E.
    rewrite !check_coop_eligibility_in_world_eq in E. cbn [fst] in E.
    rewrite check_coop_eligibility_in_world_eq, <- E. reflexivity.
  - split.
    + unfold two_calls_in_world, w_bind.
      rewrite !check_coop_eligibility_in_world_eq. reflexivity.
    + intros X earlier Hs' Hp'. rewrite (D _ w1 Hs' Hp').
      rewrite check_coop_eligibility_in_world_eq. reflexivity.
Qed.

Lemma deterministic_and_idempotent_witness :
  w_identity world_start <> w_identity world_later
  /\ w_tables world_start <> w_tables world_later
  /\ w_current_user world_start <> w_current_user world_later
  /\ exists v,
       check_coop_eligibility_in_world world_start = (Ok v, world_start)
       /\ check_coop_eligibility_in_world world_later = (Ok v, world_later)
       /\ fst (check_coop_eligibility_in_world
                 (snd (w_apply 1 1 world_start))) = Ok v.
Proof.
  split; [discriminate|]. split; [discriminate|]. split; [discriminate|].
  destruct (deterministic_and_idempotent world_start world_later)
    as [v [A [B [_ C]]]].
  - unfold User_same_fields. repeat split.
  - unfold Position_same_fields. repeat split.
  - exists v. split; [exact A|]. split; [exact B|].
    apply (C _ (w_apply 1 1)).
    + unfold User_same_fields. repeat split.
    + unfold Position_same_fields. repeat split.
Defined.

(** C9. The result depends only on the student's GPA, transfer flag and
    semester count and on the position's weeks and hours per week: records
    that agree on these five attributes get the same result, whatever their
    other columns hold. *)
Theorem unused_fields_do_not_interfere
    (s1 s2 : User.t) (p1 p2 : Position.t) :
  User.gpa s1 = User.gpa s2 ->
  User.is_transfer s1 = User.is_transfer s2 ->
  User.semesters_completed s1 = User.semesters_completed s2 ->
  Position.weeks p1 = Position.weeks p2 ->
  Position.hours_per_week p1 = Position.hours_per_week p2 ->
  call s1 p1 = call s2 p2.
Proof. apply call_five_fields. Qed.

Lemma unused_fields_do_not_interfere_witness :
  User.email stud1 <> User.email stud1_twin
  /\ Position.status p1 <> Position.status p1_pending
  /\ call stud1 p1 = call stud1_twin p1_pending.
Proof.
  split; [discriminate|]. split; [discriminate|].
  apply (unused_fields_do_not_interfere stud1 stud1_twin p1 p1_pending);
    reflexivity.
Defined.

(** ** A NULL transfer flag *)

(** C10. A student whose transfer flag is NULL is treated as a non-transfer
    student: the threshold is 2 semesters, the tenure reason, if any, is the
    non-transfer one, and the result is the one a student with the flag
    [False] gets. *)
Theorem null_transfer_is_non_transfer (s : User.t) (p : Position.t) :
  User.is_transfer s = None ->
  exists e r, call s p = Ok (e, r)
    /\ (In "Non-transfer student must have completed at least 2 semesters" r
        <-> semesters_or_zero s < 2)
    /\ ~ In "Transfer student must have completed at least 1 semester" r
    /\ (forall s', User.is_transfer s' = Some false ->
                   User.gpa s' = User.gpa s ->
                   User.semesters_completed s' = User.semesters_completed s ->
                   call s' p = Ok (e, r)).
Proof.
  intro Ht.
  exists (all_rules_pass s p), (failing_reasons s p).
  split; [apply call_eq|].
  assert (T : transfer s = false) by (unfold transfer; rewrite Ht; reflexivity).
  change "Transfer student must have completed at least 1 semester"
    with transfer_message.
  change "Non-transfer student must have completed at least 2 semesters"
    with non_transfer_message.
  rewrite In_transfer_message, In_non_transfer_message, T, Z.ltb_lt.
  repeat split; try tauto.
  - intros [H _]. discriminate H.
  - intros s' Ht' Hg Hs. rewrite call_eq.
    unfold all_rules_pass, failing_reasons, gpa_rule_fails, tenure_rule_fails,
      tenure_message, transfer, semesters_or_zero.
    rewrite Ht, Ht', Hg, Hs. reflexivity.
Qed.

Lemma null_transfer_is_non_transfer_witness :
  exists e r, call (no_transfer_flag stud2) p1 = Ok (e, r)
    /\ call stud2 p1 = Ok (e, r).
Proof.
  destruct (null_transfer_is_non_transfer (no_transfer_flag stud2) p1
              eq_refl) as [e [r [E [_ [_ H]]]]].
  exists e, r. split; [exact E|]. apply H; reflexivity.
Defined.

(** * The routes *)

(** ** Lists as tables *)

Section Tables.
Context {A : Type}.

(** An UPDATE that leaves the columns of a WHERE clause alone does not change
    which row the clause finds first. *)
Lemma find_map_preserving (P : A -> bool) (g : A -> A) (l : list A) :
  (forall a, P (g a) = P a) ->
  find P (map g l) = option_map g (find P l).
Proof.
  intros HP. induction l as [|a l IH]; [reflexivity|].
  cbn [map find]. rewrite HP. destruct (P a); [reflexivity|exact IH].
Qed.

(** A row appended to a table is found only when no earlier row matches; the
    rows found before are still the ones found. *)
Lemma find_app_one (P : A -> bool) (l : list A) (x : A) :
  find P (l ++ [x]) =
  match find P l with
  | Some a => Some a
  | None => if P x then Some x else None
  end.
Proof.
  induction l as [|a l IH]; cbn [app find]; [reflexivity|].
  destruct (P a); [reflexivity|exact IH].
Qed.

End Tables.

Lemma NoDup_app_one {K : Type} (l : list K) (k : K) :
  NoDup l -> ~ In k l -> NoDup (l ++ [k]).
Proof.
  intros Hl Hk. induction Hl as [|x l Hx Hl IH]; cbn [app].
  - constructor; [intros []|constructor].
  - constructor.
    + rewrite in_app_iff. intros [H|[H|[]]]; [exact (Hx H)|].
      subst x. apply Hk. left. reflexivity.
    + apply IH. intro H. apply Hk. right. exact H.
Qed.

(** The key columns of an application survive the selection update. *)
Lemma update_application_keys (id : Z) (offer : string)
    (l : list Application.t) :
  map (fun a => (Application.student_id a, Application.position_id a))
      (update_application id (mark_selected offer) l)
  = map (fun a => (Application.student_id a, Application.position_id a)) l.
Proof.
  unfold update_application. rewrite map_map. apply map_ext. intro a.
  destruct (Application.id a =? id); reflexivity.
Qed.

Lemma first_application_update (id sid pid : Z) (offer : string)
    (l : list Application.t) :
  find (fun a => (Application.student_id a =? sid)
                 && (Application.position_id a =? pid))
       (update_application id (mark_selected offer) l)
  = option_map
      (fun a => if Application.id a =? id then mark_selected offer a else a)
      (find (fun a => (Application.student_id a =? sid)
                      && (Application.position_id a =? pid)) l).
Proof.
  unfold update_application. apply find_map_preserving.
  intro a. destruct (Application.id a =? id); reflexivity.
Qed.

Lemma get_position_update (pid : Z) (v : string) (l : list Position.t) :
  find (fun p => Position.id p =? pid)
       (update_position pid (set_position_status v) l)
  = option_map (set_position_status v) (find (fun p => Position.id p =? pid) l).
Proof.
  unfold update_position. rewrite find_map_preserving.
  - destruct (find (fun p => Position.id p =? pid) l) as [p|] eqn:E;
      [|reflexivity].
    apply find_some in E. destruct E as [_ E]. cbn [option_map].
    rewrite E. reflexivity.
  - intro p. destruct (Position.id p =? pid) eqn:E;
      cbn [set_position_status Position.id]; congruence.
Qed.

(** The rule does not read the status column the selection writes. *)
Lemma call_set_position_status (s : User.t) (p : Position.t) (v : string) :
  call s (set_position_status v p) = call s p.
Proof. apply call_five_fields; reflexivity. Qed.

(** Users are looked up in the users table alone. *)
Lemma get_user_mkDb (us : list User.t) (ps : list Position.t)
    (aps : list Application.t) (ss : list CoOpSummary.t) (id : Z) :
  get_user (mkDb us ps aps ss) id = find (fun u => User.id u =? id) us.
Proof. reflexivity. Qed.

(** ** What a successful selection is *)

(** The tables a selection of application [a] for position [pid] leaves. *)
Lemma view_applicants_selected (db : Db) (u : User.t) (pid : Z)
    (form : option SelectForm.t) (pid' : option Z) :
  response_of (view_applicants db u pid form)
    = Redirect "view_applicants" pid' ->
  exists p f a s,
    get_position db pid = Some p
    /\ User.role u = "employer" /\ Position.employer_id p = User.id u
    /\ form = Some f
    /\ first_application db (SelectForm.selected_student_id f) pid = Some a
    /\ get_user db (SelectForm.selected_student_id f) = Some s
    /\ db_after (view_applicants db u pid form)
       = mkDb (users db)
           (update_position pid (set_position_status "pending")
              (positions db))
           (update_application (Application.id a)
              (mark_selected (str_or (SelectForm.offer_letter f) ""))
              (applications db))
           (summaries db)
    /\ flashed (view_applicants db u pid form)
       = if all_rules_pass s p
         then [("Student marked as selected. Eligibility: Eligible. Email sent (simulated).",
                "success")]
         else [(not_eligible_flash (failing_reasons s p), "warning")].
Proof.
  unfold view_applicants.
  destruct (get_position db pid) as [p|] eqn:Hp; [|discriminate].
  assert (Hid : Position.id p = pid).
  { apply find_some in Hp. apply Z.eqb_eq, Hp. }
  destruct (String.eqb_spec (User.role u) "employer") as [Hr|];
    [|discriminate].
  destruct (Z.eqb_spec (Position.employer_id p) (User.id u)) as [He|];
    [|discriminate].
  cbn [negb orb].
  destruct form as [f|]; [|discriminate].
  destruct (first_application db (SelectForm.selected_student_id f) pid)
    as [a|] eqn:Ha; [|discriminate].
  rewrite !get_user_mkDb. fold (get_user db (SelectForm.selected_student_id f)).
  destruct (get_user db (SelectForm.selected_student_id f)) as [s|] eqn:Hs;
    [|discriminate].
  rewrite call_set_position_status, call_eq, Hid.
  intros _. exists p, f, a, s.
  destruct (all_rules_pass s p); cbn [db_after flashed]; repeat split; auto.
Qed.

(** Rows with another primary key are not touched by an UPDATE. *)
Lemma In_update_other {A : Type} (key : A -> Z) (f : A -> A) (id : Z)
    (l : list A) (x : A) :
  (forall a, key (f a) = key a) ->
  key x <> id ->
  In x (map (fun a => if key a =? id then f a else a) l) <-> In x l.
Proof.
  intros Hf Hx. rewrite in_map_iff. split.
  - intros [a [E Ha]]. destruct (Z.eqb_spec (key a) id) as [Hk|Hk].
    + exfalso. apply Hx. rewrite <- E, Hf. exact Hk.
    + subst x. exact Ha.
  - intro Hin. exists x. split; [|exact Hin].
    destruct (Z.eqb_spec (key x) id) as [Hk|Hk]; [contradiction|reflexivity].
Qed.

(** The row a selection has written is the one found afterwards. *)
Lemma selection_stored_lookup (db : Db) (u : User.t) (pid : Z)
    (f : SelectForm.t) (pid' : option Z) :
  response_of (view_applicants db u pid (Some f))
    = Redirect "view_applicants" pid' ->
  exists a,
    first_application db (SelectForm.selected_student_id f) pid = Some a
    /\ first_application (db_after (view_applicants db u pid (Some f)))
         (SelectForm.selected_student_id f) pid
       = Some (mark_selected (str_or (SelectForm.offer_letter f) "") a).
Proof.
  intro H. apply view_applicants_selected in H.
  destruct H as [p [f' [a [s [Hp [_ [_ [Hf [Ha [_ [Hdb _]]]]]]]]]]].
  injection Hf as <-. exists a. rewrite Hdb. split; [exact Ha|].
  unfold first_application in *. cbn [applications].
  rewrite first_application_update, Ha. cbn [option_map].
  rewrite Z.eqb_refl. reflexivity.
Qed.

(** X1. A selection that goes through is stored: the application found for
    the student and the position is afterwards found with status 'selected'
    and the offer letter, the position has status 'pending', and no user,
    summary, other application or other position has changed. *)
Theorem selection_is_stored (db : Db) (u : User.t) (pid : Z)
    (f : SelectForm.t) (pid' : option Z) :
  response_of (view_applicants db u pid (Some f))
    = Redirect "view_applicants" pid' ->
  exists a p,
    first_application db (SelectForm.selected_student_id f) pid = Some a
    /\ get_position db pid = Some p
    /\ first_application (db_after (view_applicants db u pid (Some f)))
         (SelectForm.selected_student_id f) pid
       = Some (mark_selected (str_or (SelectForm.offer_letter f) "") a)
    /\ get_position (db_after (view_applicants db u pid (Some f))) pid
       = Some (set_position_status "pending" p)
    /\ users (db_after (view_applicants db u pid (Some f))) = users db
    /\ summaries (db_after (view_applicants db u pid (Some f))) = summaries db
    /\ (forall a', Application.id a' <> Application.id a ->
          (In a' (applications (db_after (view_applicants db u pid (Some f))))
           <-> In a' (applications db)))
    /\ (forall p', Position.id p' <> pid ->
          (In p' (positions (db_after (view_applicants db u pid (Some f))))
           <-> In p' (positions db))).
Proof.
  intro H. apply view_applicants_selected in H.
  destruct H as [p [f' [a [s [Hp [_ [_ [Hf [Ha [_ [Hdb _]]]]]]]]]]].
  injection Hf as <-. exists a, p. rewrite Hdb.
  split; [exact Ha|]. split; [exact Hp|].
  split.
  { unfold first_application in *. cbn [applications].
    rewrite first_application_update, Ha. cbn [option_map].
    rewrite Z.eqb_refl. reflexivity. }
  split.
  { unfold get_position in *. cbn [positions].
    rewrite get_position_update, Hp. reflexivity. }
  split; [reflexivity|]. split; [reflexivity|]. split.
  - intros a' Ha'. cbn [applications]. unfold update_application.
    apply (In_update_other Application.id); [reflexivity|exact Ha'].
  - intros p' Hp'. cbn [positions]. unfold update_position.
    apply (In_update_other Position.id); [reflexivity|exact Hp'].
Qed.

Lemma selection_is_stored_witness :
  exists a,
    first_application
      (db_after (view_applicants applied_db emp 1 (Some select_stud1))) 2 1
    = Some (mark_selected "Welcome" a).
Proof.
  destruct (selection_is_stored applied_db emp 1 select_stud1 (Some 1) eq_refl)
    as [a [p [_ [_ [H _]]]]].
  exists a. exact H.
Defined.

(** X2. After a selection that goes through, the dashboard of the selected
    student lists, among the pending offers, an application for that position
    with status 'selected' and the offer letter of the form. *)
Theorem selected_student_sees_offer (db : Db) (emp_user stu : User.t)
    (pid : Z) (f : SelectForm.t) (pid' : option Z) :
  response_of (view_applicants db emp_user pid (Some f))
    = Redirect "view_applicants" pid' ->
  User.role stu = "student" ->
  User.id stu = SelectForm.selected_student_id f ->
  exists my_apps pending a,
    response_of
      (student_dashboard
         (db_after (view_applicants db emp_user pid (Some f))) stu)
    = Render "student_dashboard.html" (my_apps, pending)
    /\ In a pending
    /\ Application.position_id a = pid
    /\ Application.status a = Some "selected"
    /\ Application.offer_letter a
       = Some (str_or (SelectForm.offer_letter f) "").
Proof.
  intros H Hrole Hid.
  destruct (selection_stored_lookup db emp_user pid f pid' H)
    as [a [Ha Ha']].
  unfold student_dashboard. rewrite Hrole, String.eqb_refl. cbn [negb].
  eexists _, _, (mark_selected (str_or (SelectForm.offer_letter f) "") a).
  split; [reflexivity|].
  apply find_some in Ha. destruct Ha as [_ Hk].
  apply andb_true_iff in Hk. destruct Hk as [Hs Hp].
  apply Z.eqb_eq in Hs, Hp.
  split.
  - apply filter_In. split; [|reflexivity].
    apply filter_In. split.
    + apply find_some in Ha'. exact (proj1 Ha').
    + cbn [mark_selected Application.student_id]. rewrite Hid.
      apply Z.eqb_eq. exact Hs.
  - cbn [mark_selected Application.position_id Application.status
         Application.offer_letter]. auto.
Qed.

Lemma selected_student_sees_offer_witness :
  exists my_apps pending a,
    response_of
      (student_dashboard
         (db_after (view_applicants applied_db emp 1 (Some select_stud1)))
         stud1)
    = Render "student_dashboard.html" (my_apps, pending)
    /\ In a pending
    /\ Application.position_id a = 1
    /\ Application.status a = Some "selected"
    /\ Application.offer_letter a = Some "Welcome".
Proof.
  exact (selected_student_sees_offer applied_db emp stud1 1 select_stud1
           (Some 1) eq_refl eq_refl eq_refl).
Defined.

(** ** Listings *)

(** Whatever the query, [search] returns rows of the positions table whose
    status is 'open'. *)
Lemma search_results_open (strip : string -> string)
    (ilike : string -> string -> bool) (db : Db) (q by_ : string)
    (results : list Position.t) (template : string) (p : Position.t) :
  response_of (search strip ilike db q by_) = Render template results ->
  In p results ->
  In p (positions db) /\ Position.status p = Some "open".
Proof.
  assert (O : forall x, column_eqb x "open" = true -> x = Some "open").
  { intros [v|]; cbn [column_eqb]; [|discriminate].
    intro E. apply String.eqb_eq in E. congruence. }
  unfold search. cbn [response_of]. intro H. injection H as _ <-.
  destruct (String.eqb (strip q) "").
  - unfold open_positions. rewrite filter_In. intros [Hin Hs]. auto.
  - destruct (String.eqb by_ "title"); [|destruct (String.eqb by_ "employer")].
    + rewrite filter_In, andb_true_iff. intros [Hin [_ Hs]]. auto.
    + rewrite in_map_iff. intros [[p' u] [E Hin]]. cbn [fst] in E. subst p'.
      apply filter_In in Hin. cbn [fst snd] in Hin.
      destruct Hin as [Hin Hc]. apply andb_true_iff in Hc.
      apply in_flat_map in Hin. destruct Hin as [p0 [Hp0 Hin]].
      apply in_map_iff in Hin. destruct Hin as [u0 [E _]].
      injection E as -> ->. split; [exact Hp0|apply O, Hc].
    + rewrite filter_In, andb_true_iff. intros [Hin [_ Hs]]. auto.
Qed.

(** X3. [search] never shows a position that is not open: for every query
    text, every criterion and every behaviour of [strip] and [ILIKE], each
    result is a stored position with status 'open'; and a query that is
    empty once stripped gives the list [position_list] gives. *)
Theorem search_shows_open_positions_only (strip : string -> string)
    (ilike : string -> string -> bool) (db : Db) (q by_ : string) :
  (exists results,
     response_of (search strip ilike db q by_)
       = Render "position_list.html" results
     /\ forall p, In p results ->
          In p (positions db) /\ Position.status p = Some "open")
  /\ (strip q = "" ->
      response_of (search strip ilike db q by_)
        = response_of (position_list db)).
Proof.
  split.
  - eexists. split; [reflexivity|].
    intros p. eapply search_results_open. reflexivity.
  - intro E. unfold search, position_list. rewrite E. reflexivity.
Qed.

Lemma search_shows_open_positions_only_witness :
  response_of (search (fun s => s) (fun _ _ => true) sample_db "" "employer")
  = response_of (position_list sample_db).
Proof.
  apply (proj2 (search_shows_open_positions_only
                  (fun s => s) (fun _ _ => true) sample_db "" "employer")).
  reflexivity.
Defined.

(** X4. A position for which a candidate has been selected is no longer
    listed: after a selection that goes through, neither [position_list] nor
    any [search] shows a position with that key. *)
Theorem selected_position_is_unlisted (db : Db) (u : User.t) (pid : Z)
    (f : SelectForm.t) (pid' : option Z) :
  response_of (view_applicants db u pid (Some f))
    = Redirect "view_applicants" pid' ->
  (forall p, In p (open_positions
                     (db_after (view_applicants db u pid (Some f)))) ->
             Position.id p <> pid)
  /\ (forall strip ilike q by_ template results p,
        response_of
          (search strip ilike (db_after (view_applicants db u pid (Some f)))
                  q by_)
        = Render template results ->
        In p results -> Position.id p <> pid).
Proof.
  intro H. apply view_applicants_selected in H.
  destruct H as [p0 [f' [a [s [_ [_ [_ [_ [_ [_ [Hdb _]]]]]]]]]]].
  rewrite Hdb.
  assert (K : forall p,
             In p (update_position pid (set_position_status "pending")
                     (positions db)) ->
             Position.status p = Some "open" -> Position.id p <> pid).
  { intros p Hin Hs Hid. unfold update_position in Hin.
    apply in_map_iff in Hin. destruct Hin as [q0 [E _]].
    destruct (Z.eqb_spec (Position.id q0) pid) as [Hq|Hq].
    - subst p. discriminate Hs.
    - subst p. contradiction. }
  split.
  - intros p Hin. unfold open_positions in Hin. apply filter_In in Hin.
    destruct Hin as [Hin Hs]. cbn [positions] in Hin. apply (K p Hin).
    destruct (Position.status p) as [v|]; [|discriminate Hs].
    cbn [column_eqb] in Hs. apply String.eqb_eq in Hs. congruence.
  - intros strip ilike q by_ template results p Hr Hin.
    destruct (search_results_open _ _ _ _ _ _ _ p Hr Hin) as [Hp Hs].
    exact (K p Hp Hs).
Qed.

Lemma selected_position_is_unlisted_witness :
  Forall (fun p => Position.id p <> 1)
    (open_positions
       (db_after (view_applicants applied_db emp 1 (Some select_stud1)))).
Proof.
  apply Forall_forall.
  exact (proj1 (selected_position_is_unlisted applied_db emp 1 select_stud1
                  (Some 1) eq_refl)).
Defined.

(** ** The verdict in the employer's page *)

(** X5. After a selection that goes through, the message flashed to the
    employer carries the verdict of the rule on the selected student and the
    position as it was stored before the selection: category 'success' when
    the rule returns [true], and otherwise category 'warning' with the
    reasons joined by ", ", of which there is at least one. *)
Theorem selection_flash_reports_rule (db : Db) (u : User.t) (pid : Z)
    (f : SelectForm.t) (pid' : option Z) :
  response_of (view_applicants db u pid (Some f))
    = Redirect "view_applicants" pid' ->
  exists s p e r,
    get_user db (SelectForm.selected_student_id f) = Some s
    /\ get_position db pid = Some p
    /\ call s p = Ok (e, r)
    /\ flashed (view_applicants db u pid (Some f))
       = (if e
          then [("Student marked as selected. Eligibility: Eligible. Email sent (simulated).",
                 "success")]
          else [("Student marked as selected. Not eligible: " ++ join ", " r
                 ++ ". Email sent (simulated).", "warning")])
    /\ (e = false -> r <> []).
Proof.
  intro H. apply view_applicants_selected in H.
  destruct H as [p [f' [a [s [Hp [_ [_ [Hf [_ [Hs [_ Hfl]]]]]]]]]]].
  injection Hf as <-.
  exists s, p, (all_rules_pass s p), (failing_reasons s p).
  split; [exact Hs|]. split; [exact Hp|]. split; [apply call_eq|].
  split; [exact Hfl|].
  intros E N. apply failing_reasons_nil in N. congruence.
Qed.

Lemma selection_flash_reports_rule_witness :
  flashed (view_applicants applied_db emp 2 (Some select_stud2))
  = [("Student marked as selected. Not eligible: GPA below 2.0, Position weeks 6 < 7, Total hours 120 < 140. Email sent (simulated).",
      "warning")].
Proof.
  destruct (selection_flash_reports_rule applied_db emp 2 select_stud2
              (Some 2) eq_refl) as [s [p [e [r [Hs [Hp [Hc [Hf _]]]]]]]].
  injection Hs as <-. injection Hp as <-. injection Hc as <- <-.
  exact Hf.
Defined.

(** X6. The selection is committed before the student row is read: when the
    application names a student for whom no user row exists, the request ends
    in an exception with nothing flashed or printed, and the tables keep the
    application as 'selected' and the position as 'pending'. *)
Theorem selection_survives_missing_student (db : Db) (u : User.t) (pid : Z)
    (f : SelectForm.t) (p : Position.t) (a : Application.t) :
  get_position db pid = Some p ->
  User.role u = "employer" ->
  Position.employer_id p = User.id u ->
  first_application db (SelectForm.selected_student_id f) pid = Some a ->
  get_user db (SelectForm.selected_student_id f) = None ->
  response_of (view_applicants db u pid (Some f)) = Raised "AttributeError"
  /\ flashed (view_applicants db u pid (Some f)) = []
  /\ printed (view_applicants db u pid (Some f)) = []
  /\ first_application (db_after (view_applicants db u pid (Some f)))
       (SelectForm.selected_student_id f) pid
     = Some (mark_selected (str_or (SelectForm.offer_letter f) "") a)
  /\ get_position (db_after (view_applicants db u pid (Some f))) pid
     = Some (set_position_status "pending" p).
Proof.
  intros Hp Hr He Ha Hs. unfold view_applicants.
  rewrite Hp, Hr, He, Z.eqb_refl, Ha, String.eqb_refl. cbn [negb orb].
  rewrite get_user_mkDb.
  fold (get_user db (SelectForm.selected_student_id f)). rewrite Hs.
  cbn [response_of flashed printed db_after].
  repeat split.
  - unfold first_application in *. cbn [applications].
    rewrite first_application_update, Ha. cbn [option_map].
    rewrite Z.eqb_refl. reflexivity.
  - assert (Hid : Position.id p = pid).
    { apply find_some in Hp. apply Z.eqb_eq, Hp. }
    unfold get_position in *. cbn [positions]. rewrite Hid.
    rewrite get_position_update, Hp. reflexivity.
Qed.

Lemma selection_survives_missing_student_witness :
  response_of (view_applicants dangling_db emp 1 (Some select_gone))
  = Raised "AttributeError"
  /\ first_application
       (db_after (view_applicants dangling_db emp 1 (Some select_gone))) 9 1
     = Some (Application.Build 1 9 1 (Some "selected") (Some "")).
Proof.
  destruct (selection_survives_missing_student dangling_db emp 1 select_gone
              p1 (Application.Build 1 9 1 (Some "applied") None)
              eq_refl eq_refl eq_refl eq_refl eq_refl)
    as [H1 [_ [_ [H2 _]]]].
  split; [exact H1|exact H2].
Defined.

(** ** Applications *)

Lemma first_application_none (db : Db) (sid pid : Z) :
  first_application db sid pid = None ->
  ~ In (sid, pid)
       (map (fun a => (Application.student_id a, Application.position_id a))
            (applications db)).
Proof.
  unfold first_application. intros Hf Hin.
  apply in_map_iff in Hin. destruct Hin as [a [E Ha]].
  pose proof (find_none _ _ Hf a Ha) as H. cbn beta in H.
  injection E as E1 E2. rewrite E1, E2, !Z.eqb_refl in H. discriminate H.
Qed.

(** X7. No request gives a student a second application for a position: if
    every (student, position) pair occurs at most once among the applications,
    it still does after any [position_detail] request and after any
    [view_applicants] request. *)
Theorem one_application_per_pair_kept (db : Db) :
  one_application_per_pair db ->
  (forall new_id current_user pid submitted,
     one_application_per_pair
       (db_after (position_detail new_id db current_user pid submitted)))
  /\ (forall current_user pid form,
        one_application_per_pair
          (db_after (view_applicants db current_user pid form))).
Proof.
  intro Inv. split.
  - intros new_id cu pid submitted. unfold position_detail.
    destruct (get_position db pid) as [p|]; [|exact Inv].
    destruct submitted; [|exact Inv].
    destruct cu as [u|]; [|exact Inv].
    destruct (negb (String.eqb (User.role u) "student")); [exact Inv|].
    destruct (first_application db (User.id u) (Position.id p)) eqn:Hf;
      [exact Inv|].
    unfold one_application_per_pair in *. cbn [db_after applications].
    rewrite map_app. cbn [map Application.student_id Application.position_id].
    apply NoDup_app_one; [exact Inv|].
    apply first_application_none, Hf.
  - intros cu pid form. unfold view_applicants.
    destruct (get_position db pid) as [p|]; [|exact Inv].
    destruct (negb (String.eqb (User.role cu) "employer")
              || negb (Position.employer_id p =? User.id cu));
      [exact Inv|].
    destruct form as [f|]; [|exact Inv].
    destruct (first_application db (SelectForm.selected_student_id f) pid)
      as [a|]; [|exact Inv].
    assert (K : one_application_per_pair
                  (mkDb (users db)
                     (update_position (Position.id p)
                        (set_position_status "pending") (positions db))
                     (update_application (Application.id a)
                        (mark_selected (str_or (SelectForm.offer_letter f) ""))
                        (applications db))
                     (summaries db))).
    { unfold one_application_per_pair in *. cbn [applications].
      rewrite update_application_keys. exact Inv. }
    destruct (get_user _ _) as [s|]; [|exact K].
    rewrite call_eq.
    destruct (all_rules_pass s _); exact K.
Qed.

Lemma one_application_per_pair_kept_witness :
  one_application_per_pair
    (db_after (position_detail 3 applied_db (Some stud1) 1 true))
  /\ one_application_per_pair
       (db_after (view_applicants applied_db emp 1 (Some select_stud1))).
Proof.
  assert (I : one_application_per_pair applied_db).
  { repeat constructor; cbn; intuition discriminate. }
  destruct (one_application_per_pair_kept applied_db I) as [A B].
  split; [apply A|apply B].
Defined.

(** X8. An application that has been submitted reaches the employer: after
    a student's application is confirmed, the applicants page of the
    position, asked for by the employer who owns it, lists an application of
    that student with status 'applied'. *)
Theorem application_reaches_employer (new_id : Z) (db : Db)
    (stu emp_user : User.t) (pid : Z) (p : Position.t) :
  response_of (position_detail new_id db (Some stu) pid true)
    = Render "apply_confirm.html" p ->
  User.role emp_user = "employer" ->
  Position.employer_id p = User.id emp_user ->
  exists apps a,
    response_of
      (view_applicants
         (db_after (position_detail new_id db (Some stu) pid true))
         emp_user pid None)
    = Render "view_applicants.html" (p, apps)
    /\ In a apps
    /\ Application.student_id a = User.id stu
    /\ Application.status a = Some "applied".
Proof.
  unfold position_detail.
  destruct (get_position db pid) as [p0|] eqn:Hp; [|discriminate].
  destruct (negb (String.eqb (User.role stu) "student")); [discriminate|].
  destruct (first_application db (User.id stu) (Position.id p0));
    [discriminate|].
  cbn [response_of db_after]. intros H Hr He. injection H as <-.
  assert (Hid : Position.id p0 = pid).
  { apply find_some in Hp. apply Z.eqb_eq, Hp. }
  unfold view_applicants, get_position in *. cbn [positions applications].
  rewrite Hp, Hr, He, Z.eqb_refl, String.eqb_refl. cbn [negb orb response_of].
  eexists _, (Application.Build new_id (User.id stu) (Position.id p0)
                (Some "applied") None).
  split; [reflexivity|]. split; [|split; reflexivity].
  apply filter_In. split.
  - apply in_or_app. right. left. reflexivity.
  - cbn [Application.position_id]. rewrite Hid. apply Z.eqb_refl.
Qed.

Lemma application_reaches_employer_witness :
  exists apps a,
    response_of
      (view_applicants
         (db_after (position_detail 1 sample_db (Some stud1) 1 true))
         emp 1 None)
    = Render "view_applicants.html" (p1, apps)
    /\ In a apps
    /\ Application.student_id a = 2
    /\ Application.status a = Some "applied".
Proof.
  exact (application_reaches_employer 1 sample_db stud1 emp 1 p1
           eq_refl eq_refl eq_refl).
Defined.

(** X9. Applying twice does nothing the second time: once an application has
    been confirmed, the same student applying for the same position again
    gets 'Already applied' and the tables stay as they are. *)
Theorem second_application_refused (new_id new_id' : Z) (db : Db)
    (stu : User.t) (pid : Z) (p : Position.t) :
  response_of (position_detail new_id db (Some stu) pid true)
    = Render "apply_confirm.html" p ->
  position_detail new_id'
    (db_after (position_detail new_id db (Some stu) pid true))
    (Some stu) pid true
  = mkOutcome (Render "position_detail.html" p) [("Already applied", "info")]
      [] (db_after (position_detail new_id db (Some stu) pid true)).
Proof.
  unfold position_detail at 1 3 4.
  destruct (get_position db pid) as [p0|] eqn:Hp; [|discriminate].
  destruct (negb (String.eqb (User.role stu) "student")) eqn:Hr;
    [discriminate|].
  destruct (first_application db (User.id stu) (Position.id p0)) eqn:Hf;
    [discriminate|].
  cbn [response_of db_after]. intro H. injection H as <-.
  unfold position_detail, get_position in *. cbn [positions].
  rewrite Hp, Hr. unfold first_application in *. cbn [applications].
  rewrite find_app_one, Hf.
  cbn [Application.student_id Application.position_id].
  rewrite !Z.eqb_refl. reflexivity.
Qed.

Lemma second_application_refused_witness :
  flashed
    (position_detail 2
       (db_after (position_detail 1 sample_db (Some stud1) 1 true))
       (Some stud1) 1 true)
  = [("Already applied", "info")].
Proof.
  rewrite (second_application_refused 1 2 sample_db stud1 1 p1 eq_refl).
  reflexivity.
Defined.

(** ** Accounts *)

Lemma find_email_none (l : list User.t) (e : string) :
  find (fun u => String.eqb (User.email u) e) l = None ->
  ~ In e (map User.email l).
Proof.
  intros Hf Hin. apply in_map_iff in Hin. destruct Hin as [u [E Hu]].
  pose proof (find_none _ _ Hf u Hu) as H. cbn beta in H.
  rewrite E, String.eqb_refl in H. discriminate H.
Qed.

(** With unique addresses, the row found for an address is the user who has
    it. *)
Lemma find_email_unique (l : list User.t) (u : User.t) :
  NoDup (map User.email l) -> In u l ->
  find (fun v => String.eqb (User.email v) (User.email u)) l = Some u.
Proof.
  induction l as [|v l IH]; intros Hn Hin; [destruct Hin|].
  cbn [map] in Hn. inversion Hn as [|e es Hv Hl]; subst.
  cbn [find]. destruct Hin as [->|Hin].
  - rewrite String.eqb_refl. reflexivity.
  - destruct (String.eqb_spec (User.email v) (User.email u)) as [E|_].
    + exfalso. apply Hv. rewrite E. apply in_map. exact Hin.
    + apply IH; assumption.
Qed.

(** X10. Registration keeps email addresses unique: if no two users share an
    address, none do after any [register] request; and a registration with
    an address that is taken is refused with the tables unchanged. *)
Theorem unique_emails_kept (generate_password_hash : string -> string)
    (new_id : Z) (db : Db) (form : option RegisterForm.t) :
  (unique_emails db ->
   unique_emails
     (db_after (register generate_password_hash new_id db form)))
  /\ (forall f, form = Some f ->
        In (RegisterForm.email f) (map User.email (users db)) ->
        register generate_password_hash new_id db form
        = mkOutcome (Redirect "register" None)
            [("Email already registered.", "danger")] [] db).
Proof.
  split.
  - intro Inv. unfold register. destruct form as [f|]; [|exact Inv].
    destruct (find _ (users db)) eqn:Hf; [exact Inv|].
    unfold unique_emails in *. cbn [db_after users].
    rewrite map_app. cbn [map User.email].
    apply NoDup_app_one; [exact Inv|]. apply find_email_none, Hf.
  - intros f -> Hin. unfold register.
    destruct (find _ (users db)) eqn:Hf; [reflexivity|].
    destruct (find_email_none _ _ Hf Hin).
Qed.

Lemma unique_emails_kept_witness :
  unique_emails
    (db_after (register sample_hash 5 sample_db
                 (Some (RegisterForm.Build "student" "New Student"
                          "new@student.com" "secret"))))
  /\ response_of
       (register sample_hash 5 sample_db
          (Some (RegisterForm.Build "student" "Jack Again"
                   "jack@student.com" "secret")))
     = Redirect "register" None.
Proof.
  split.
  - apply (proj1 (unique_emails_kept sample_hash 5 sample_db _)).
    repeat constructor; cbn; intuition discriminate.
  - rewrite (proj2 (unique_emails_kept sample_hash 5 sample_db _) _ eq_refl).
    + reflexivity.
    + cbn. auto.
Defined.

(** X11. [login] calls [login_user] only with a stored user whose address is
    the one entered and whose stored hash accepts the password entered, and
    then redirects to that user's dashboard (faculty for every role other
    than employer and student); an unknown address and a wrong password give
    the same response.  With unique addresses, every stored user is logged
    in by the own address and an accepted password. *)
Theorem login_checks_password (check_password_hash : string -> string -> bool)
    (db : Db) (f : LoginForm.t) :
  (forall u, snd (login check_password_hash db (Some f)) = Some u ->
     In u (users db)
     /\ User.email u = LoginForm.email f
     /\ check_password_hash (User.password_hash u) (LoginForm.password f)
        = true
     /\ response_of (fst (login check_password_hash db (Some f)))
        = Redirect
            (if String.eqb (User.role u) "employer" then "employer_dashboard"
             else if String.eqb (User.role u) "student"
                  then "student_dashboard" else "faculty_dashboard")
            None)
  /\ (snd (login check_password_hash db (Some f)) = None ->
      login check_password_hash db (Some f)
      = (mkOutcome (Render "login.html" tt)
           [("Invalid credentials", "danger")] [] db, None))
  /\ (forall u, unique_emails db -> In u (users db) ->
        User.email u = LoginForm.email f ->
        check_password_hash (User.password_hash u) (LoginForm.password f)
        = true ->
        snd (login check_password_hash db (Some f)) = Some u).
Proof.
  unfold login. repeat split.
  - destruct (find _ (users db)) as [v|] eqn:Hf; [|discriminate].
    destruct (check_password_hash _ _); [|discriminate].
    cbn [snd] in H. injection H as <-. apply find_some in Hf. apply Hf.
  - destruct (find _ (users db)) as [v|] eqn:Hf; [|discriminate].
    destruct (check_password_hash _ _); [|discriminate].
    cbn [snd] in H. injection H as <-. apply find_some in Hf.
    apply String.eqb_eq, Hf.
  - destruct (find _ (users db)) as [v|] eqn:Hf; [|discriminate].
    destruct (check_password_hash _ _) eqn:Hc; [|discriminate].
    cbn [snd] in H. injection H as <-. exact Hc.
  - destruct (find _ (users db)) as [v|] eqn:Hf; [|discriminate].
    destruct (check_password_hash _ _) eqn:Hc; [|discriminate].
    cbn [snd] in H. injection H as <-. reflexivity.
  - destruct (find _ (users db)) as [v|] eqn:Hf; [|reflexivity].
    destruct (check_password_hash _ _); [discriminate|reflexivity].
  - intros u Inv Hin He Hc. rewrite <- He.
    rewrite (find_email_unique _ u Inv Hin), Hc. reflexivity.
Qed.

Lemma login_checks_password_witness :
  snd (login (fun _ _ => true) sample_db
         (Some (LoginForm.Build "sam@student.com" "password")))
  = Some stud2.
Proof.
  apply (proj2 (proj2 (login_checks_password (fun _ _ => true) sample_db
                         (LoginForm.Build "sam@student.com" "password")))).
  - repeat constructor; cbn; intuition discriminate.
  - cbn. auto.
  - reflexivity.
  - reflexivity.
Defined.

(** X12. A new account can be used at once: when the hash check accepts the
    hash generated for a password and the address is not taken, logging in
    with the address and password just registered calls [login_user] with
    the new user, who has the role and address of the form. *)
Theorem registered_user_can_log_in
    (generate_password_hash : string -> string)
    (check_password_hash : string -> string -> bool)
    (new_id : Z) (db : Db) (f : RegisterForm.t) :
  check_password_hash (generate_password_hash (RegisterForm.password f))
                      (RegisterForm.password f) = true ->
  ~ In (RegisterForm.email f) (map User.email (users db)) ->
  exists u,
    snd (login check_password_hash
           (db_after (register generate_password_hash new_id db (Some f)))
           (Some (LoginForm.Build (RegisterForm.email f)
                    (RegisterForm.password f))))
    = Some u
    /\ User.id u = new_id
    /\ User.role u = RegisterForm.role f
    /\ User.email u = RegisterForm.email f.
Proof.
  intros Hc Hfree.
  assert (Hf : find (fun u => String.eqb (User.email u) (RegisterForm.email f))
                    (users db) = None).
  { destruct (find _ (users db)) as [v|] eqn:E; [|reflexivity].
    exfalso. apply Hfree. apply find_some in E. destruct E as [Hin E].
    apply String.eqb_eq in E. rewrite <- E. apply in_map. exact Hin. }
  unfold register. rewrite Hf. cbn [db_after].
  unfold login. cbn [users LoginForm.email LoginForm.password].
  rewrite find_app_one, Hf. cbn [User.email].
  rewrite String.eqb_refl. cbn [User.password_hash User.role].
  rewrite Hc. cbn [snd].
  eexists. split; [reflexivity|]. repeat split.
Qed.

Lemma registered_user_can_log_in_witness :
  exists u,
    snd (login sample_check
           (db_after (register sample_hash 5 sample_db
                        (Some (RegisterForm.Build "student" "New Student"
                                 "new@student.com" "secret"))))
           (Some (LoginForm.Build "new@student.com" "secret")))
    = Some u
    /\ User.id u = 5
    /\ User.role u = "student"
    /\ User.email u = "new@student.com".
Proof.
  apply (registered_user_can_log_in sample_hash sample_check 5 sample_db
           (RegisterForm.Build "student" "New Student" "new@student.com"
              "secret")).
  - reflexivity.
  - cbn. intuition discriminate.
Defined.

(** X13. [register] stores no academic attribute, so the account it creates
    does not pass the rule: for every position the verdict on the user a
    registration has added is [false], with the GPA reason and the
    non-transfer tenure reason among the reasons. *)
Theorem registered_user_is_not_eligible
    (generate_password_hash : string -> string) (new_id : Z) (db : Db)
    (form : option RegisterForm.t) (u : User.t) (p : Position.t) :
  In u (users (db_after (register generate_password_hash new_id db form))) ->
  ~ In u (users db) ->
  exists r,
    call u p = Ok (false, r)
    /\ In "GPA below 2.0" r
    /\ In "Non-transfer student must have completed at least 2 semesters" r.
Proof.
  unfold register. intros Hin Hnew.
  destruct form as [f|]; [|contradiction].
  destruct (find _ (users db)); [contradiction|].
  cbn [db_after users] in Hin. apply in_app_or in Hin.
  destruct Hin as [Hin|[<-|[]]]; [contradiction|].
  rewrite call_eq. eexists. split; [reflexivity|]. split.
  - apply In_gpa_message. reflexivity.
  - apply In_non_transfer_message. split; reflexivity.
Qed.

Lemma registered_user_is_not_eligible_witness :
  exists r,
    call (User.Build 5 "student" "New Student" "new@student.com"
            (sample_hash "secret") None None None None None None (Some false)
            None None None None None None None None) p1
    = Ok (false, r)
    /\ In "GPA below 2.0" r
    /\ In "Non-transfer student must have completed at least 2 semesters" r.
Proof.
  apply (registered_user_is_not_eligible sample_hash 5 sample_db
           (Some (RegisterForm.Build "student" "New Student" "new@student.com"
                    "secret"))).
  - cbn. auto 10.
  - cbn. intuition discriminate.
Defined.

(** ** Grades *)

(** X14. A grade that has been entered is stored: after [enter_grade] has
    accepted a grade, the summary with that key is found with the grade and
    otherwise as it was, every summary with another key is untouched, and the
    other tables are unchanged. *)
Theorem grade_is_stored (db : Db) (u : User.t) (summary_id : Z) (g : string) :
  response_of (enter_grade db u summary_id (Some g))
    = Redirect "faculty_dashboard" None ->
  exists s,
    get_summary db summary_id = Some s
    /\ get_summary (db_after (enter_grade db u summary_id (Some g))) summary_id
       = Some (set_grade g s)
    /\ (forall s', CoOpSummary.id s' <> summary_id ->
          (In s' (summaries (db_after (enter_grade db u summary_id (Some g))))
           <-> In s' (summaries db)))
    /\ users (db_after (enter_grade db u summary_id (Some g))) = users db
    /\ positions (db_after (enter_grade db u summary_id (Some g)))
       = positions db
    /\ applications (db_after (enter_grade db u summary_id (Some g)))
       = applications db.
Proof.
  unfold enter_grade.
  destruct (negb (String.eqb (User.role u) "faculty")); [discriminate|].
  destruct (get_summary db summary_id) as [s|] eqn:Hs; [|discriminate].
  intros _. exists s. cbn [db_after users positions applications summaries].
  assert (Hid : CoOpSummary.id s = summary_id).
  { apply find_some in Hs. apply Z.eqb_eq, Hs. }
  rewrite Hid. split; [reflexivity|]. split; [|split; [|auto]].
  - unfold get_summary in *. cbn [summaries]. unfold update_summary.
    rewrite find_map_preserving.
    + rewrite Hs. cbn [option_map]. rewrite Hid, Z.eqb_refl. reflexivity.
    + intro a. destruct (CoOpSummary.id a =? summary_id) eqn:E;
        cbn [set_grade CoOpSummary.id]; congruence.
  - intros s' Hs'. unfold update_summary.
    apply (In_update_other CoOpSummary.id); [reflexivity|exact Hs'].
Qed.

Lemma grade_is_stored_witness :
  exists s,
    get_summary
      (db_after
         (enter_grade
            (db_after (submit_summary 1 sample_db stud1 1 (Some "It went well")))
            fac 1 (Some "A")))
      1
    = Some (set_grade "A" s).
Proof.
  destruct (grade_is_stored
              (db_after (submit_summary 1 sample_db stud1 1
                           (Some "It went well")))
              fac 1 "A" eq_refl) as [s [_ [H _]]].
  exists s. exact H.
Defined.

(** ** Roles *)

(** X15. Nothing is written without the role the view asks for: a request
    that changes the tables comes from an employer ([create_position]), from
    a logged-in student ([position_detail], [submit_summary]), from the
    employer who owns the position ([view_applicants]) or from a faculty
    member ([enter_grade]); and the applicants of a position are rendered
    only for the employer who owns it. *)
Theorem writes_require_role (db : Db) :
  (forall new_id u form,
     db_after (create_position new_id db u form) <> db ->
     User.role u = "employer")
  /\ (forall new_id cu pid submitted,
        db_after (position_detail new_id db cu pid submitted) <> db ->
        exists u, cu = Some u /\ User.role u = "student")
  /\ (forall new_id u pid text,
        db_after (submit_summary new_id db u pid text) <> db ->
        User.role u = "student")
  /\ (forall u pid form,
        db_after (view_applicants db u pid form) <> db ->
        User.role u = "employer"
        /\ exists p, get_position db pid = Some p
                     /\ Position.employer_id p = User.id u)
  /\ (forall u summary_id g,
        db_after (enter_grade db u summary_id g) <> db ->
        User.role u = "faculty")
  /\ (forall u pid form template p apps,
        response_of (view_applicants db u pid form)
          = Render template (p, apps) ->
        User.role u = "employer" /\ Position.employer_id p = User.id u).
Proof.
  repeat apply conj.
  - intros new_id u form. unfold create_position.
    destruct (String.eqb_spec (User.role u) "employer") as [E|_];
      [auto|]. cbn [negb not_authorized db_after]. congruence.
  - intros new_id cu pid submitted. unfold position_detail.
    destruct (get_position db pid); [|cbn; congruence].
    destruct submitted; [|cbn; congruence].
    destruct cu as [u|]; [|cbn; congruence].
    destruct (String.eqb_spec (User.role u) "student") as [E|_];
      [eauto|]. cbn [negb db_after]. congruence.
  - intros new_id u pid text. unfold submit_summary.
    destruct (String.eqb_spec (User.role u) "student") as [E|_];
      [auto|]. cbn [negb db_after]. congruence.
  - intros u pid form. unfold view_applicants.
    destruct (get_position db pid) as [p|]; [|cbn; congruence].
    destruct (String.eqb_spec (User.role u) "employer") as [E|_];
      [|cbn [negb orb not_authorized db_after]; congruence].
    destruct (Z.eqb_spec (Position.employer_id p) (User.id u)) as [E'|_];
      [|cbn [negb orb not_authorized db_after]; congruence].
    intros _. eauto.
  - intros u summary_id g. unfold enter_grade.
    destruct (String.eqb_spec (User.role u) "faculty") as [E|_];
      [auto|]. cbn [negb not_authorized db_after]. congruence.
  - intros u pid form template p apps. unfold view_applicants.
    destruct (get_position db pid) as [p0|]; [|discriminate].
    destruct (String.eqb_spec (User.role u) "employer") as [E|_];
      [|discriminate].
    destruct (Z.eqb_spec (Position.employer_id p0) (User.id u)) as [E'|_];
      [|discriminate].
    cbn [negb orb].
    destruct form as [f|].
    + destruct (first_application db _ pid).
      * destruct (get_user _ _); [|discriminate].
        rewrite call_eq. destruct (all_rules_pass _ _); discriminate.
      * cbn [response_of]. intro H. injection H as _ <- _. auto.
    + cbn [response_of]. intro H. injection H as _ <- _. auto.
Qed.

Lemma writes_require_role_witness :
  User.role stud1 = "student"
  /\ User.role emp = "employer".
Proof.
  destruct (writes_require_role sample_db) as [_ [A [_ [_ [_ B]]]]].
  split.
  - destruct (A 1 (Some stud1) 1 true) as [u [E R]].
    + intro H. apply (f_equal (fun d => List.length (applications d))) in H.
      discriminate H.
    + injection E as <-. exact R.
  - apply (B emp 1 None "view_applicants.html" p1 []). reflexivity.
Defined.

(** ** More on the rule *)

(** X16. No reason is reported twice: the reasons returned by the rule are
    pairwise distinct, and there are at most four of them. *)
Theorem reasons_are_distinct (s : User.t) (p : Position.t) :
  exists e r, call s p = Ok (e, r) /\ NoDup r /\ (List.length r <= 4)%nat.
Proof.
  exists (all_rules_pass s p), (failing_reasons s p).
  split; [apply call_eq|].
  assert (T : tenure_message s <> gpa_message
              /\ tenure_message s <> weeks_message p
              /\ tenure_message s <> hours_message p).
  { destruct (tenure_message_cases s) as [[-> _]|[-> _]]; repeat split;
      intro H; symmetry in H; revert H;
      first [ apply gpa_neq_transfer | apply gpa_neq_non_transfer
            | apply weeks_neq_transfer | apply weeks_neq_non_transfer
            | apply hours_neq_transfer | apply hours_neq_non_transfer ]. }
  destruct T as [T1 [T2 T3]].
  pose proof (gpa_neq_weeks p) as G1. pose proof (gpa_neq_hours p) as G2.
  pose proof (weeks_neq_hours p) as W1.
  unfold failing_reasons.
  destruct (gpa_rule_fails s), (weeks_rule_fails p), (hours_rule_fails p),
    (tenure_rule_fails s); cbn [filter map fst snd List.length];
    (split; [|lia]);
    repeat (constructor; [cbn [In]; intuition congruence|]);
    constructor.
Qed.

(** X17. More of what the rule asks for never costs the verdict: if a
    student is eligible for a position, so is a student with the same GPA, at
    least as many completed semesters and a transfer status that is kept when
    it is set, for a position of at least as many weeks and hours per week. *)
Theorem eligibility_is_monotone (s s' : User.t) (p p' : Position.t) :
  call s p = Ok (true, []) ->
  User.gpa s' = User.gpa s ->
  semesters_or_zero s <= semesters_or_zero s' ->
  (User.is_transfer s = Some true -> User.is_transfer s' = Some true) ->
  Position.weeks p <= Position.weeks p' ->
  Position.hours_per_week p <= Position.hours_per_week p' ->
  call s' p' = Ok (true, []).
Proof.
  rewrite !call_eq. intros H Hg Hs Ht Hw Hh.
  injection H as H _.
  assert (P : all_rules_pass s' p' = true).
  { revert H. unfold all_rules_pass, gpa_rule_fails, weeks_rule_fails,
      hours_rule_fails, tenure_rule_fails, total_hours.
    rewrite Hg, !negb_true_iff, !orb_false_iff.
    intros [[[G W] T] N]. rewrite G.
    apply Z.ltb_ge in W, T.
    assert (W' : (Position.weeks p' <? 7) = false) by (apply Z.ltb_ge; lia).
    assert (H1 : 1 <= Position.hours_per_week p) by nia.
    assert (H2 : Position.weeks p * Position.hours_per_week p
                 <= Position.weeks p * Position.hours_per_week p')
      by (apply Z.mul_le_mono_nonneg_l; lia).
    assert (H3 : Position.weeks p * Position.hours_per_week p'
                 <= Position.weeks p' * Position.hours_per_week p')
      by (apply Z.mul_le_mono_nonneg_r; lia).
    assert (T' : (Position.weeks p' * Position.hours_per_week p' <? 140)
                 = false) by (apply Z.ltb_ge; lia).
    rewrite W', T'. repeat split.
    rewrite <- !transfer_true_iff in Ht.
    destruct (transfer s) eqn:E.
    - rewrite (Ht eq_refl). apply Z.ltb_ge in N. apply Z.ltb_ge. lia.
    - apply Z.ltb_ge in N.
      destruct (transfer s'); apply Z.ltb_ge; lia. }
  rewrite P. apply failing_reasons_nil in P. rewrite P. reflexivity.
Qed.

Lemma eligibility_is_monotone_witness :
  call (with_semesters (Some 5) stud1) p1 = Ok (true, []).
Proof.
  apply (eligibility_is_monotone stud1 (with_semesters (Some 5) stud1) p1 p1);
    first [reflexivity | vm_compute; discriminate | discriminate].
Defined.
